(** * watch_build.py: the asset verification cache and the build trigger

    A shallow embedding of [watch_build.py] (the file watcher of the Arc
    Spirits Tabletop Simulator mod) and the proofs of the properties its
    specification states about it.

    Conventions of the embedding.
    - A Python [str] is a Rocq [string], read as the UTF-8 bytes of the text:
      prefix, substring and ordering tests agree with Python's on code points.
    - A Python [float] is a binary64 [float] of the kernel, so the arithmetic
      of the debouncer is the one Python performs.
    - A value decoded by [json.loads] is a [json] tree; a [dict] keeps its
      items in insertion order.
    - Everything outside the process (the network, the clock, the file
      system, child processes, the GUI automation modules) is read from a
      [world] record; what the program does to the outside is recorded as a
      list of [event]s.
    - A function that can raise returns an [outcome]; only subclasses of
      [Exception] are modelled ([KeyboardInterrupt] is not). *)

From Stdlib Require Import ZArith Floats String Ascii List Bool Lia.
From stdpp Require Import gmap strings list sorting.

Local Open Scope string_scope.

(** ** Python strings *)

Module PyStr.

(** [s.startswith(prefix)] *)
Definition startswith (s prefix : string) : bool := String.prefix prefix s.

(** [sub in s] *)
Fixpoint contains (sub s : string) : bool :=
  String.prefix sub s ||
  match s with
  | EmptyString => false
  | String _ s' => contains sub s'
  end.

(** [s.endswith(suffix)] *)
Fixpoint endswith (s suffix : string) : bool :=
  String.eqb s suffix ||
  match s with
  | EmptyString => false
  | String _ s' => endswith s' suffix
  end.

(** [s[i:]] for [0 <= i] *)
Fixpoint drop (i : nat) (s : string) : string :=
  match i, s with
  | O, _ => s
  | S i', String _ s' => drop i' s'
  | S _, EmptyString => EmptyString
  end.

(** [s.rfind(c)] for a one-character [c]: the highest index, or [-1]. *)
Fixpoint rfind_from (c : ascii) (s : string) (i last : Z) : Z :=
  match s with
  | EmptyString => last
  | String a s' => rfind_from c s' (i + 1) (if Ascii.eqb a c then i else last)
  end.

Definition rfind (s : string) (c : ascii) : Z := rfind_from c s 0 (-1).

(** [s.lower()]. Only the letters A to Z change. A character outside ASCII
    never lowers to one of the ASCII letters other than k (the Kelvin
    sign), and no watched extension contains a k, so the bytes of such
    characters can stay as they are for the membership test the program
    makes. *)
Definition lower_ascii (c : ascii) : ascii :=
  let n := nat_of_ascii c in
  if (65 <=? n)%nat && (n <=? 90)%nat then ascii_of_nat (n + 32) else c.

Fixpoint lower (s : string) : string :=
  match s with
  | EmptyString => EmptyString
  | String c s' => String (lower_ascii c) (lower s')
  end.

(** [sep.join(parts)] *)
Definition join (sep : string) (parts : list string) : string :=
  String.concat sep parts.

End PyStr.

(** ** Decoded JSON *)

#[local] Set Warnings "-register-all".

(** The values [json.loads] builds: [None], [bool], [int], [float], [str],
    [list] and [dict] with [str] keys. *)
Inductive json : Type :=
| JNull
| JBool (b : bool)
| JInt (n : Z)
| JFloat (x : float)
| JStr (s : string)
| JList (items : list json)
| JDict (items : list (string * json)).

(** [d.get(key)] on the items of a [dict]: the value, or [None]. *)
Fixpoint dict_lookup (items : list (string * json)) (key : string) : option json :=
  match items with
  | [] => None
  | (k, v) :: rest => if String.eqb k key then Some v else dict_lookup rest key
  end.

(** The exact comparison Python makes between a [float] and an [int]. *)
Definition float_eq_int (x : float) (n : Z) : bool :=
  match Prim2SF x with
  | S754_zero _ => (n =? 0)%Z
  | S754_finite sign m e =>
      let v := if sign then Z.neg m else Z.pos m in
      if (0 <=? e)%Z then (n =? v * 2 ^ e)%Z else (n * 2 ^ (- e) =? v)%Z
  | _ => false
  end.

Definition int_of_bool (b : bool) : Z := if b then 1%Z else 0%Z.

(** [x != x]: the float is a NaN. *)
Definition is_nan (x : float) : bool := negb (PrimFloat.eqb x x).

(** Equality of decoded JSON as CPython computes it. [bool] is a subclass of
    [int], numbers compare by value, lists compare item by item, dicts as
    maps. The items of a list and the values of a dict are compared by
    [PyObject_RichCompareBool], which answers [True] for one and the same
    object before it asks [==]; [json.loads] decodes every [NaN] to one and
    the same object, so with [inside] a NaN equals a NaN, while without it
    ([a == b] itself) it differs from itself. *)
Fixpoint rich_compare (inside : bool) (a b : json) {struct a} : bool :=
  match a, b with
  | JNull, JNull => true
  | JBool x, JBool y => Bool.eqb x y
  | JBool x, JInt n => (int_of_bool x =? n)%Z
  | JBool x, JFloat y => float_eq_int y (int_of_bool x)
  | JInt n, JBool y => (n =? int_of_bool y)%Z
  | JInt n, JInt m => (n =? m)%Z
  | JInt n, JFloat y => float_eq_int y n
  | JFloat x, JBool y => float_eq_int x (int_of_bool y)
  | JFloat x, JInt m => float_eq_int x m
  | JFloat x, JFloat y => (inside && is_nan x && is_nan y) || PrimFloat.eqb x y
  | JStr s, JStr t => String.eqb s t
  | JList xs, JList ys =>
      (fix all2 (xs ys : list json) : bool :=
         match xs, ys with
         | [], [] => true
         | x :: xs', y :: ys' => rich_compare true x y && all2 xs' ys'
         | _, _ => false
         end) xs ys
  | JDict xs, JDict ys =>
      (length xs =? length ys)%nat &&
      (fix all_in (xs : list (string * json)) : bool :=
         match xs with
         | [] => true
         | (k, v) :: xs' =>
             match dict_lookup ys k with
             | Some v' => rich_compare true v v'
             | None => false
             end && all_in xs'
         end) xs
  | _, _ => false
  end.

(** [a == b] *)
Definition py_eq (a b : json) : bool := rich_compare false a b.

(** ** gather_asset_urls *)

(** The test of line 93: [value.startswith("http") and "supabase.co" in value]. *)
Definition is_asset_url (value : string) : bool :=
  PyStr.startswith value "http" && PyStr.contains "supabase.co" value.

(** The inner function [walk]; the set [urls] it adds to is threaded. *)
Fixpoint walk (value : json) (urls : gset string) {struct value} : gset string :=
  match value with
  | JDict items =>
      (fix walk_items (items : list (string * json)) (urls : gset string) : gset string :=
         match items with
         | [] => urls
         | (key, inner) :: rest =>
             walk_items rest
               (if String.eqb key "schema_docs" then urls else walk inner urls)
         end) items urls
  | JList items =>
      (fix walk_list (items : list json) (urls : gset string) : gset string :=
         match items with
         | [] => urls
         | inner :: rest => walk_list rest (walk inner urls)
         end) items urls
  | JStr s => if is_asset_url s then {[ s ]} ∪ urls else urls
  | _ => urls
  end.

Definition gather_asset_urls (data : json) : gset string := walk data ∅.

(** *** Positions of a manifest

    [occurs u data]: the string scalar [u] is a value somewhere in [data], at
    a position that no key [schema_docs] lies above. Keys are not values. *)
Inductive occurs (u : string) : json -> Prop :=
| occurs_here : occurs u (JStr u)
| occurs_in_list (items : list json) (inner : json) :
    inner ∈ items -> occurs u inner -> occurs u (JList items)
| occurs_in_dict (items : list (string * json)) (key : string) (inner : json) :
    (key, inner) ∈ items -> key <> "schema_docs" -> occurs u inner ->
    occurs u (JDict items).

(** *** The qualification in the words of the specification

    A string that begins with an HTTP(S) scheme and whose host belongs to the
    asset-hosting domain. The host is the authority (what follows the scheme
    up to the first [/], [?] or [#]) without user information and port. *)
Module SpecUrl.

Definition after_scheme (s : string) : option string :=
  if PyStr.startswith s "https://" then Some (PyStr.drop 8 s)
  else if PyStr.startswith s "http://" then Some (PyStr.drop 7 s)
  else None.

Fixpoint take_until (stop : ascii -> bool) (s : string) : string :=
  match s with
  | EmptyString => EmptyString
  | String c s' => if stop c then EmptyString else String c (take_until stop s')
  end.

Definition is_one_of (stops : string) (c : ascii) : bool :=
  existsb (Ascii.eqb c) (list_ascii_of_string stops).

Definition authority (rest : string) : string := take_until (is_one_of "/?#") rest.

Definition host (auth : string) : string :=
  let i := PyStr.rfind auth "@" in
  take_until (is_one_of ":") (PyStr.drop (Z.to_nat (i + 1)) auth).

Definition in_domain (h domain : string) : bool :=
  String.eqb h domain || PyStr.endswith h ("." ++ domain).

Definition qualifies (s : string) : bool :=
  match after_scheme s with
  | Some rest => in_domain (host (authority rest)) "supabase.co"
  | None => false
  end.

End SpecUrl.

(** ** Paths

    A [pathlib.Path] that is absolute: its parts below the root. A relative
    path is the list of its parts. *)
Definition path : Type := list string.

(** ** Exceptions, the outside world, effects *)

(** The subclasses of [Exception] the program can meet. *)
Inductive exn : Type :=
| HTTPError (code : Z)        (* urllib.error.HTTPError, with its [code] *)
| URLError                    (* urllib.error.URLError, timeouts, connection errors *)
| JSONDecodeError             (* json.loads, or decode, on an unusable body *)
| ValueError
| AttributeError
| TimeoutExpired              (* subprocess.TimeoutExpired *)
| ImportError
| OSError.

Inductive outcome (A : Type) : Type :=
| Ret (a : A)
| Raise (e : exn).
Arguments Ret {A} a.
Arguments Raise {A} e.

Inductive method : Type := HEAD | GET.

Inductive platform : Type := darwin | win32 | linux.

(** What a completed child process leaves behind. *)
Record CompletedProcess : Type := {
  returncode : Z;
  stderr : string;
}.

(** The outside world during one call from the main loop or the observer. *)
Record world : Type := {
  (** [Path(__file__).resolve().parent] *)
  PROJECT_DIR : path;
  sys_platform : platform;
  (** [Path.home()] *)
  home : path;
  (** [fetch_asset_manifest()]: the decoded body, or what [urlopen], [read],
      [decode] or [json.loads] raised. *)
  manifest_response : outcome json;
  (** [urllib.request.Request(url, method=...)]: the constructor parses the
      URL and raises [ValueError] (unknown url type) when it finds no
      scheme, that is no [:] before the first [/]. In [check_url] both
      constructions (lines 102 and 112) stand outside the [try] blocks. *)
  request_accepted : string -> bool;
  (** [urlopen(request, timeout=...)]: the [status] of the response it
      returns, or what it raised. The library returns a response for a
      final status from 200 to 299 and raises [HTTPError] with the status
      as [code] for any other, so a server that answers 405 is seen as
      [Raise (HTTPError 405)]; every other failure (refused connection,
      timeout, unknown scheme) is an exception of another class. *)
  urlopen_response : method -> string -> outcome Z;
  (** [p.exists()]: the answer, or the [OSError] that [stat] raised and
      [exists] lets through (a directory above [p] that may not be
      searched, for one). *)
  path_exists : path -> outcome bool;
  (** [subprocess.run(cmd, ...)] *)
  subprocess_response : list string -> outcome CompletedProcess;
  (** [time.time()] in the event handler *)
  time_time : float;
  (** [time.strftime('%H:%M:%S')] *)
  time_strftime : string;
  (** the difference of the two clock readings around [subprocess.run] *)
  elapsed : float;
  (** whether [pyautogui] and [pygetwindow] import *)
  gui_modules : bool;
  (** [pygetwindow.getAllTitles()] *)
  window_titles : outcome (list string);
  (** [pyautogui.hotkey("f9")] *)
  hotkey_response : outcome unit;
}.

(** One constructor for each [print] of the program, with the values its
    text interpolates. *)
Inductive message : Type :=
| msg_asset_check_failed (err : exn)              (* line 125 *)
| msg_asset_check_failed_cached (n : nat)         (* line 133 *)
| msg_missing_url (url : string)                  (* lines 135 and 159 *)
| msg_and_more (n : nat)                          (* lines 137 and 161 *)
| msg_no_urls_found                               (* line 143 *)
| msg_checked (index total : nat)                 (* line 151 *)
| msg_asset_check_failed_missing (n : nat)        (* line 157 *)
| msg_asset_check_ok (n : nat)                    (* line 164 *)
| msg_build_skipped                               (* line 171 *)
| msg_rule_after_newline                          (* lines 182 and 225 *)
| msg_rule                                        (* lines 184 and 227 *)
| msg_building (clock : string)                   (* line 183 *)
| msg_build_successful (seconds : float)          (* line 198 *)
| msg_build_failed                                (* line 201 *)
| msg_stderr (text : string)                      (* lines 202 and 245 *)
| msg_build_timed_out                             (* line 205 *)
| msg_build_error (err : exn)                     (* line 207 *)
| msg_save_not_found (output_file : path)         (* line 215 *)
| msg_decomposing (clock : string)                (* line 226 *)
| msg_decompose_successful (seconds : float)      (* line 241 *)
| msg_source_files_updated                        (* line 242 *)
| msg_decompose_failed                            (* line 244 *)
| msg_decompose_timed_out                         (* line 248 *)
| msg_decompose_error (err : exn)                 (* line 250 *)
| msg_triggered_reload                            (* line 272 *)
| msg_window_not_found                            (* line 274 *)
| msg_install_gui_modules                         (* line 277 *)
| msg_could_not_reload (err : exn)                (* line 279 *)
| msg_changed (rel_path : path)                   (* line 330 *)
| msg_manual_build                                (* line 388 *)
| msg_manual_asset_check                          (* line 391 *)
| msg_manual_decompose                            (* line 394 *)
| msg_quitting.                                   (* line 397 *)

(** What the program does to the outside. *)
Inductive event : Type :=
| ev_print (m : message)
| ev_fetch_manifest                               (* urlopen(ASSET_MANIFEST_URL) *)
| ev_urlopen (meth : method) (url : string)       (* a reachability probe *)
| ev_subprocess (cmd : list string) (cwd : option path) (timeout : Z)
| ev_sleep
| ev_hotkey (key : string).

(** The dict [ASSET_CHECK_CACHE] with its two keys; [None] is [JNull] for
    the token and [None] for the list. *)
Record cache : Type := {
  exported_at : json;
  bad_urls : option (list string);
}.

(** The instance of [BuildHandler] the observer calls. *)
Record BuildHandler : Type := {
  last_build_time : float;
}.

(** The mutable state of the process. *)
Record state : Type := {
  ASSET_CHECK_CACHE : cache;
  event_handler : BuildHandler;
}.

Definition set_cache (c : cache) (st : state) : state :=
  {| ASSET_CHECK_CACHE := c; event_handler := event_handler st |}.

Definition set_last_build_time (t : float) (st : state) : state :=
  {| ASSET_CHECK_CACHE := ASSET_CHECK_CACHE st;
     event_handler := {| last_build_time := t |} |}.

(** Lines 43 to 46 and line 286: the state when the watcher starts. *)
Definition initial_state : state :=
  {| ASSET_CHECK_CACHE := {| exported_at := JNull; bad_urls := None |};
     event_handler := {| last_build_time := 0 |} |}.

(** Computations: they read and write the state, record events, and return
    or raise. *)
Definition M (A : Type) : Type := state -> outcome A * state * list event.

Definition ret {A} (a : A) : M A := fun st => (Ret a, st, []).

Definition raise {A} (e : exn) : M A := fun st => (Raise e, st, []).

Definition bind {A B} (m : M A) (k : A -> M B) : M B :=
  fun st =>
    match m st with
    | (Ret a, st', t) => let '(r, st'', t') := k a st' in (r, st'', (t ++ t')%list)
    | (Raise e, st', t) => (Raise e, st', t)
    end.

(** [try: m  except Exception as e: handler e] *)
Definition try_except {A} (m : M A) (handler : exn -> M A) : M A :=
  fun st =>
    match m st with
    | (Ret a, st', t) => (Ret a, st', t)
    | (Raise e, st', t) => let '(r, st'', t') := handler e st' in (r, st'', (t ++ t')%list)
    end.

Definition emit (e : event) : M unit := fun st => (Ret tt, st, [e]).

Definition print (m : message) : M unit := emit (ev_print m).

Definition get_state : M state := fun st => (Ret st, st, []).

Definition put_state (st : state) : M unit := fun _ => (Ret tt, st, []).

Definition lift {A} (o : outcome A) : M A := fun st => (o, st, []).

Notation "'let!' x ':=' m 'in' k" := (bind m (fun x => k))
  (at level 10, x name, m at level 100, k at level 200).
Notation "m '>>' k" := (bind m (fun _ => k))
  (at level 90, right associativity).

(** [for x in xs: body x] *)
Fixpoint for_each {A} (xs : list A) (body : A -> M unit) : M unit :=
  match xs with
  | [] => ret tt
  | x :: rest => body x >> for_each rest body
  end.

(** ** pathlib *)

Module Path.

(** [p.name]: the last part, or the empty string. *)
Definition name (p : path) : string := List.last p "".

(** [p.suffix]: from the last dot of the name, when that dot is neither the
    first nor the last character of the name. *)
Definition suffix (p : path) : string :=
  let n := name p in
  let i := PyStr.rfind n "." in
  if (0 <? i)%Z && (i <? Z.of_nat (String.length n) - 1)%Z
  then PyStr.drop (Z.to_nat i) n
  else "".

(** [p.relative_to(base)]: the parts of [p] below [base]; [ValueError]
    when [p] is not below [base]. *)
Fixpoint relative_to (p base : path) : outcome path :=
  match base, p with
  | [], _ => Ret p
  | b :: base', x :: p' => if String.eqb b x then relative_to p' base' else Raise ValueError
  | _ :: _, [] => Raise ValueError
  end.

(** [str(p)] for a relative path *)
Definition str_relative (parts : path) : string :=
  match parts with
  | [] => "."
  | _ => PyStr.join "/" parts
  end.

(** [str(p)] for an absolute path *)
Definition str (p : path) : string := "/" ++ PyStr.join "/" p.

(** [p / segment] *)
Definition div (p : path) (segment : string) : path := (p ++ [segment])%list.

End Path.

(** ** Configuration (lines 35 to 60) *)

Definition GAME_NAME : string := "Arc Spirits".

Definition TTSMODMANAGER_DIR (w : world) : path := Path.div (PROJECT_DIR w) "TTSModManager".

Definition WATCH_PATTERNS : list string := ["src"; "objects"; "modsettings"; "config.json"].

Definition WATCH_EXTENSIONS : gset string := {[ ".ttslua"; ".lua"; ".json"; ".xml" ]}.

Definition DEBOUNCE_SECONDS : float := 1.

(** ** get_tts_saves_folder *)

Definition get_tts_saves_folder (w : world) : path :=
  match sys_platform w with
  | darwin => (home w ++ ["Library"; "Tabletop Simulator"; "Saves"])%list
  | win32 => (home w ++ ["Documents"; "My Games"; "Tabletop Simulator"; "Saves"])%list
  | linux => (home w ++ [".local"; "share"; "Tabletop Simulator"; "Saves"])%list
  end.

(** ** fetch_asset_manifest *)

Definition fetch_asset_manifest (w : world) : M json :=
  emit ev_fetch_manifest >> lift (manifest_response w).

(** ** check_url *)

Record request : Type := {
  full_url : string;
  request_method : method;
}.

(** [urllib.request.Request(url, method=meth)] *)
Definition Request (w : world) (url : string) (meth : method) : M request :=
  if request_accepted w url
  then ret {| full_url := url; request_method := meth |}
  else raise ValueError.

(** [urlopen(request, timeout=ASSET_CHECK_TIMEOUT)], giving the status. *)
Definition urlopen (w : world) (r : request) : M Z :=
  emit (ev_urlopen (request_method r) (full_url r)) >>
  lift (urlopen_response w (request_method r) (full_url r)).

(** Lines 100 to 117. A [try] statement gives [Some b] when it returned [b]
    and [None] when control falls through to the statement after it. *)
Definition check_url (w : world) (url : string) : M bool :=
  let! request := Request w url HEAD in
  let! first :=
    try_except
      (let! status := urlopen w request in ret (Some (status <? 400)%Z))
      (fun err =>
         match err with
         | HTTPError code => if negb (code =? 405)%Z then ret (Some false) else ret None
         | _ => ret (Some false)
         end) in
  match first with
  | Some reachable => ret reachable
  | None =>
      let! request := Request w url GET in
      try_except
        (let! status := urlopen w request in ret (status <? 400)%Z)
        (fun _ => ret false)
  end.

(** ** verify_assets *)

(** [manifest.get("exported_at")]: only a [dict] has the method. *)
Definition py_get (value : json) (key : string) : outcome json :=
  match value with
  | JDict items => Ret (default JNull (dict_lookup items key))
  | _ => Raise AttributeError
  end.

Definition str_le (a b : string) : Prop := String.leb a b = true.

#[global] Instance str_le_dec : RelDecision str_le :=
  fun a b => decide (String.leb a b = true).

(** [sorted(urls)] of a set of strings *)
Definition sorted (urls : gset string) : list string :=
  merge_sort str_le (elements urls).

(** Line 131: the cached list when
    [cached_export == exported_at and cached_bad is not None]. *)
Definition cache_hit (c : cache) (exported : json) : option (list string) :=
  if py_eq (exported_at c) exported then bad_urls c else None.

(** Lines 134 to 137 and 158 to 161: the first ten, then the count of the rest. *)
Definition print_missing (bad : list string) : M unit :=
  for_each (take 10 bad) (fun url => print (msg_missing_url url)) >>
  if (10 <? length bad)%nat then print (msg_and_more (length bad - 10)) else ret tt.

(** Lines 146 to 151: the loop over [enumerate(urls, start=1)]. *)
Fixpoint check_each (w : world) (urls : list string) (index total : nat)
    (bad : list string) : M (list string) :=
  match urls with
  | [] => ret bad
  | url :: rest =>
      let! reachable := check_url w url in
      let bad := if reachable then bad else (bad ++ [url])%list in
      (if (index mod 100 =? 0)%nat then print (msg_checked index total) else ret tt) >>
      check_each w rest (S index) total bad
  end.

Definition verify_assets (w : world) : M bool :=
  let! fetched :=
    try_except
      (let! manifest := fetch_asset_manifest w in ret (Some manifest))
      (fun err => print (msg_asset_check_failed err) >> ret None) in
  match fetched with
  | None => ret false
  | Some manifest =>
      let! exported := lift (py_get manifest "exported_at") in
      let! st := get_state in
      match cache_hit (ASSET_CHECK_CACHE st) exported with
      | Some cached_bad =>
          match cached_bad with
          | _ :: _ =>
              print (msg_asset_check_failed_cached (length cached_bad)) >>
              print_missing cached_bad >>
              ret false
          | [] => ret true
          end
      | None =>
          let urls := sorted (gather_asset_urls manifest) in
          match urls with
          | [] => print msg_no_urls_found >> ret false
          | _ :: _ =>
              let! bad := check_each w urls 1 (length urls) [] in
              let! st := get_state in
              put_state (set_cache {| exported_at := exported; bad_urls := Some bad |} st) >>
              match bad with
              | _ :: _ =>
                  print (msg_asset_check_failed_missing (length bad)) >>
                  print_missing bad >>
                  ret false
              | [] => print (msg_asset_check_ok (length urls)) >> ret true
              end
          end
      end
  end.

(** ** trigger_tts_reload, run_build, run_decompose *)

(** [subprocess.run(cmd, cwd=..., capture_output=True, timeout=...)] *)
Definition subprocess_run (w : world) (cmd : list string) (cwd : option path)
    (timeout : Z) : M CompletedProcess :=
  emit (ev_subprocess cmd cwd timeout) >> lift (subprocess_response w cmd).

Definition double_quote : string := String (ascii_of_nat 34) EmptyString.

Definition activate_script : string :=
  "tell application " ++ double_quote ++ "Tabletop Simulator" ++ double_quote ++ " to activate".

Definition trigger_tts_reload (w : world) : M unit :=
  try_except
    ((if gui_modules w then ret tt else raise ImportError) >>
     let! titles := lift (window_titles w) in
     if existsb (PyStr.contains "Tabletop Simulator") titles then
       subprocess_run w ["osascript"; "-e"; activate_script] None 5 >>
       emit ev_sleep >>
       emit (ev_hotkey "f9") >>
       lift (hotkey_response w) >>
       print msg_triggered_reload
     else
       print msg_window_not_found)
    (fun err =>
       match err with
       | ImportError => print msg_install_gui_modules
       | _ => print (msg_could_not_reload err)
       end).

Definition output_file (w : world) : path :=
  Path.div (get_tts_saves_folder w) (GAME_NAME ++ ".json").

Definition build_cmd (w : world) : list string :=
  ["go"; "run"; "main.go";
   "-moddir=" ++ Path.str (PROJECT_DIR w);
   "-modfile=" ++ Path.str (output_file w)].

Definition run_build (w : world) (check_assets : bool) : M unit :=
  let! skipped :=
    (if check_assets then let! ok := verify_assets w in ret (negb ok) else ret false) in
  if skipped : bool then
    print msg_build_skipped
  else
    print msg_rule_after_newline >>
    print (msg_building (time_strftime w)) >>
    print msg_rule >>
    try_except
      (let! result := subprocess_run w (build_cmd w) (Some (TTSMODMANAGER_DIR w)) 60 in
       if (returncode result =? 0)%Z then
         print (msg_build_successful (elapsed w)) >>
         trigger_tts_reload w
       else
         print msg_build_failed >>
         print (msg_stderr (stderr result)))
      (fun err =>
         match err with
         | TimeoutExpired => print msg_build_timed_out
         | _ => print (msg_build_error err)
         end).

Definition decompose_cmd (w : world) : list string :=
  (build_cmd w ++ ["-reverse"])%list.

Definition run_decompose (w : world) : M unit :=
  let! found := lift (path_exists w (output_file w)) in
  if negb found then
    print (msg_save_not_found (output_file w))
  else
    print msg_rule_after_newline >>
    print (msg_decomposing (time_strftime w)) >>
    print msg_rule >>
    try_except
      (let! result := subprocess_run w (decompose_cmd w) (Some (TTSMODMANAGER_DIR w)) 60 in
       if (returncode result =? 0)%Z then
         print (msg_decompose_successful (elapsed w)) >>
         print msg_source_files_updated
       else
         print msg_decompose_failed >>
         print (msg_stderr (stderr result)))
      (fun err =>
         match err with
         | TimeoutExpired => print msg_decompose_timed_out
         | _ => print (msg_decompose_error err)
         end).

(** ** BuildHandler *)

(** The events of watchdog: for a file or for a directory, of some kind. *)
Inductive event_kind : Type := modified | created | deleted | moved | closed | opened.

Record FileSystemEvent : Type := {
  is_directory : bool;
  kind : event_kind;
  (** [Path(event.src_path)] *)
  src_path : path;
}.

(** [isinstance(event, (FileModifiedEvent, FileCreatedEvent))] *)
Definition is_file_modified_or_created (e : FileSystemEvent) : bool :=
  negb (is_directory e) &&
  match kind e with
  | modified | created => true
  | _ => false
  end.

(** Lines 288 to 307. *)
Definition should_trigger_build (project_dir : path) (p : path) : outcome bool :=
  if negb (bool_decide (PyStr.lower (Path.suffix p) ∈ WATCH_EXTENSIONS)) then Ret false
  else
    match Path.relative_to p project_dir with
    | Raise e => Raise e
    | Ret rel_path =>
        let first_part := match rel_path with part :: _ => part | [] => "" end in
        if negb (bool_decide (first_part ∈ WATCH_PATTERNS)) &&
           negb (bool_decide (Path.str_relative rel_path ∈ WATCH_PATTERNS))
        then Ret false
        else if existsb (fun part => PyStr.startswith part ".") rel_path then Ret false
        else if PyStr.endswith (Path.name p) "~" || PyStr.startswith (Path.name p) ".#"
        then Ret false
        else Ret true
    end.

(** Lines 309 to 331. *)
Definition on_any_event (w : world) (e : FileSystemEvent) : M unit :=
  if is_directory e then ret tt
  else if negb (is_file_modified_or_created e) then ret tt
  else
    let p := src_path e in
    let! trigger := lift (should_trigger_build (PROJECT_DIR w) p) in
    if negb trigger then ret tt
    else
      let now := time_time w in
      let! st := get_state in
      if PrimFloat.ltb (PrimFloat.sub now (last_build_time (event_handler st))) DEBOUNCE_SECONDS
      then ret tt
      else
        put_state (set_last_build_time now st) >>
        let! rel_path := lift (Path.relative_to p (PROJECT_DIR w)) in
        print (msg_changed rel_path) >>
        run_build w false.

(** ** The commands of the main loop (lines 382 to 398)

    One turn of the loop for the key read, if any; the result tells whether
    the loop breaks. *)
Definition handle_key (w : world) (key : option string) : M bool :=
  match key with
  | None | Some "" => ret false
  | Some key =>
      let key_lower := PyStr.lower key in
      if String.eqb key_lower "b" then
        print msg_manual_build >> run_build w false >> ret false
      else if String.eqb key_lower "a" then
        print msg_manual_asset_check >> verify_assets w >> ret false
      else if String.eqb key_lower "d" then
        print msg_manual_decompose >> run_decompose w >> ret false
      else if String.eqb key_lower "q" then
        print msg_quitting >> ret true
      else ret false
  end.

(** ** Reading a trace *)

(** The reachability probes of a trace, in order. *)
Definition probes (t : list event) : list (method * string) :=
  omap (fun e => match e with ev_urlopen meth url => Some (meth, url) | _ => None end) t.

(** The child processes of a trace, by command line. *)
Definition spawned (t : list event) : list (list string) :=
  omap (fun e => match e with ev_subprocess cmd _ _ => Some cmd | _ => None end) t.

(** The messages of a trace. *)
Definition printed (t : list event) : list message :=
  omap (fun e => match e with ev_print m => Some m | _ => None end) t.

(** The URLs a trace lists as missing, and its truncation notes. *)
Definition listed_urls (t : list event) : list string :=
  omap (fun e => match e with ev_print (msg_missing_url url) => Some url | _ => None end) t.

Definition truncation_notes (t : list event) : list nat :=
  omap (fun e => match e with ev_print (msg_and_more n) => Some n | _ => None end) t.

(** Whether a trace touches the asset network at all. *)
Definition uses_asset_network (e : event) : bool :=
  match e with
  | ev_fetch_manifest | ev_urlopen _ _ => true
  | _ => false
  end.

(** ** What one reachability check amounts to

    Read off the answers of the world: whether the first probe is answered
    with 405, what the second probe then says, the verdict, and the probes
    made. They are compared with [check_url] below. *)
Definition answers_405 (w : world) (url : string) : bool :=
  match urlopen_response w HEAD url with
  | Raise (HTTPError code) => (code =? 405)%Z
  | _ => false
  end.

Definition second_verdict (w : world) (url : string) : bool :=
  match urlopen_response w GET url with
  | Ret status => (status <? 400)%Z
  | Raise _ => false
  end.

Definition verdict (w : world) (url : string) : bool :=
  match urlopen_response w HEAD url with
  | Ret status => (status <? 400)%Z
  | Raise _ => answers_405 w url && second_verdict w url
  end.

Definition probes_of (w : world) (url : string) : list (method * string) :=
  (HEAD, url) :: (if answers_405 w url then [(GET, url)] else []).

Definition probe_event (p : method * string) : event := ev_urlopen (fst p) (snd p).

(** The status of the final answer to a probe, whether [urlopen] returned
    the response or raised it as [HTTPError]; none when the probe ended
    without an answer. *)
Definition answered_status (r : outcome Z) : option Z :=
  match r with
  | Ret status => Some status
  | Raise (HTTPError code) => Some code
  | Raise _ => None
  end.

(** The events of the loop of [verify_assets] over URLs that [Request]
    accepts: the probes of each URL, and a progress line after every
    hundredth. *)
Fixpoint check_each_trace (w : world) (urls : list string) (index total : nat)
    : list event :=
  match urls with
  | [] => []
  | url :: rest =>
      (map probe_event (probes_of w url) ++
       (if (index mod 100 =? 0)%nat then [ev_print (msg_checked index total)] else []) ++
       check_each_trace w rest (S index) total)%list
  end.

(** The lines that list missing assets: the first ten, then the note. *)
Definition missing_trace (bad : list string) : list event :=
  (map (fun url => ev_print (msg_missing_url url)) (take 10 bad) ++
   (if (10 <? length bad)%nat then [ev_print (msg_and_more (length bad - 10))] else []))%list.

(** What a cache hit prints, and what a completed pass over [total] URLs
    prints. *)
Definition cached_report (cached_bad : list string) : list event :=
  match cached_bad with
  | [] => []
  | _ :: _ =>
      ev_print (msg_asset_check_failed_cached (length cached_bad)) :: missing_trace cached_bad
  end.

Definition fresh_report (total : nat) (bad : list string) : list event :=
  match bad with
  | [] => [ev_print (msg_asset_check_ok total)]
  | _ :: _ => ev_print (msg_asset_check_failed_missing (length bad)) :: missing_trace bad
  end.

(** A trace without any request to the manifest endpoint or to an asset
    host. *)
Definition quiet (t : list event) : Prop :=
  Forall (fun e => uses_asset_network e = false) t.

(** [not bad_urls]: whether a list is empty. *)
Definition is_empty (bad : list string) : bool :=
  match bad with
  | [] => true
  | _ :: _ => false
  end.

(** ** The observer over time

    The same world at another reading of the clock, whether a trace starts
    the build, and the delivery of one event at successive times. *)
Definition at_time (w : world) (now : float) : world :=
  {| PROJECT_DIR := PROJECT_DIR w;
     sys_platform := sys_platform w;
     home := home w;
     manifest_response := manifest_response w;
     request_accepted := request_accepted w;
     urlopen_response := urlopen_response w;
     path_exists := path_exists w;
     subprocess_response := subprocess_response w;
     time_time := now;
     time_strftime := time_strftime w;
     elapsed := elapsed w;
     gui_modules := gui_modules w;
     window_titles := window_titles w;
     hotkey_response := hotkey_response w |}.

Definition starts_build (w : world) (t : list event) : bool :=
  bool_decide (build_cmd w ∈ spawned t).

Fixpoint deliver (w : world) (e : FileSystemEvent) (times : list float) (st : state)
    : list bool :=
  match times with
  | [] => []
  | now :: rest =>
      let '(_, st', t) := on_any_event (at_time w now) e st in
      starts_build w t :: deliver w e rest st'
  end.

(** ** Worlds and inputs for the examples *)

Module Examples.

(** A manifest with a documentation subtree, nested assets, and strings
    that do not qualify. *)
Definition manifest_v1 : json :=
  JDict [("exported_at", JStr "v1");
         ("schema_docs", JList [JStr "https://d.supabase.co/doc.png"]);
         ("cards", JList [JDict [("front", JStr "https://x.supabase.co/b.png")];
                          JStr "https://x.supabase.co/a.png";
                          JStr "ftp://x.supabase.co/c.png";
                          JInt 3])].

(** A manifest one of whose asset URLs lacks the colon of its scheme. *)
Definition manifest_typo : json :=
  JDict [("exported_at", JStr "v2");
         ("icon", JStr "http//x.supabase.co/a.png");
         ("card", JStr "https://x.supabase.co/b.png")].

(** A manifest without any asset URL. *)
Definition manifest_no_assets : json :=
  JDict [("exported_at", JStr "v3");
         ("title", JStr "Arc Spirits");
         ("schema_docs", JDict [("example", JStr "https://x.supabase.co/a.png")])].

(** A manifest with one asset that is gone. *)
Definition manifest_gone : json :=
  JDict [("exported_at", JStr "v4");
         ("tokens", JList [JStr "https://x.supabase.co/a.png";
                           JStr "https://x.supabase.co/gone.png"])].

(** A manifest with twelve assets, none of which is served. *)
Definition manifest_many_gone : json :=
  JDict [("exported_at", JStr "v5");
         ("decks",
          JList (map (fun name => JStr ("https://x.supabase.co/deck-" ++ name ++ ".png"))
                     ["a"; "b"; "c"; "d"; "e"; "f"; "g"; "h"; "i"; "j"; "k"; "l"]))].

(** Two manifests without the key [exported_at], with different assets. *)
Definition manifest_untagged : json :=
  JDict [("cards", JList [JStr "https://x.supabase.co/a.png"])].

Definition manifest_untagged_later : json :=
  JDict [("cards", JList [JStr "https://x.supabase.co/gone.png"])].

(** What [Request] accepts: a colon before the first slash. *)
Fixpoint has_scheme (url : string) : bool :=
  match url with
  | EmptyString => false
  | String c rest =>
      if Ascii.eqb c ":" then true
      else if Ascii.eqb c "/" then false
      else has_scheme rest
  end.

(** A Linux machine where [a.png] answers 200, [b.png] answers 405 to HEAD
    and 200 to GET, and every other URL answers 404. *)
Definition answers (meth : method) (url : string) : outcome Z :=
  if String.eqb url "https://x.supabase.co/a.png" then Ret 200%Z
  else if String.eqb url "https://x.supabase.co/b.png" then
    match meth with
    | HEAD => Raise (HTTPError 405)
    | GET => Ret 200%Z
    end
  else Raise (HTTPError 404).

Definition machine (manifest : outcome json) : world :=
  {| PROJECT_DIR := ["home"; "dev"; "arc-spirits-tts"];
     sys_platform := linux;
     home := ["home"; "dev"];
     manifest_response := manifest;
     request_accepted := has_scheme;
     urlopen_response := answers;
     path_exists := fun _ => Ret false;
     subprocess_response := fun _ => Ret {| returncode := 0; stderr := "" |};
     time_time := 1700000000;
     time_strftime := "12:00:00";
     elapsed := 2;
     gui_modules := false;
     window_titles := Ret [];
     hotkey_response := Ret tt |}.

(** The same machine before servers that answer the probes otherwise. *)
Definition answering (w : world) (answer : method -> string -> outcome Z) : world :=
  {| PROJECT_DIR := PROJECT_DIR w;
     sys_platform := sys_platform w;
     home := home w;
     manifest_response := manifest_response w;
     request_accepted := request_accepted w;
     urlopen_response := answer;
     path_exists := path_exists w;
     subprocess_response := subprocess_response w;
     time_time := time_time w;
     time_strftime := time_strftime w;
     elapsed := elapsed w;
     gui_modules := gui_modules w;
     window_titles := window_titles w;
     hotkey_response := hotkey_response w |}.

(** A server that answers every probe with 304 (not modified), which
    [urlopen] raises as [HTTPError]. *)
Definition not_modified (meth : method) (url : string) : outcome Z :=
  Raise (HTTPError 304).

(** The clock readings of the examples: the reading of the clock of the
    machine when a first event arrives, and the readings 0.5 and 1.1 seconds
    later, as Python reads the literals [1700000000.5] and
    [1700000001.1]. *)
Definition t_first : float := 1700000000.
Definition t_after_0_5 : float := 0x1.954fc402p+30.
Definition t_after_1_1 : float := 0x1.954fc40466666p+30.

Definition lua_saved : FileSystemEvent :=
  {| is_directory := false;
     kind := modified;
     src_path := ["home"; "dev"; "arc-spirits-tts"; "src"; "Global.ttslua"] |}.

End Examples.

(** ** Further readings of a trace and of the observer *)

(** The URLs that received a first probe (HEAD), in order. *)
Definition first_probes (t : list event) : list string :=
  omap (fun e => match e with ev_urlopen HEAD url => Some url | _ => None end) t.

(** The key presses a trace sends to the game. *)
Definition hotkeys (t : list event) : list string :=
  omap (fun e => match e with ev_hotkey key => Some key | _ => None end) t.

(** The activation command of [trigger_tts_reload]. *)
Definition activate_cmd : list string := ["osascript"; "-e"; activate_script].

(** The observer thread delivering events one after the other, each at its
    own reading of the clock: the times at which a build was started, and
    the state at the end. An exception that leaves the handler ends the
    thread, so delivery stops there. *)
Fixpoint observe (w : world) (inputs : list (float * FileSystemEvent)) (st : state)
    : list float * state :=
  match inputs with
  | [] => ([], st)
  | (now, e) :: rest =>
      match on_any_event (at_time w now) e st with
      | (Ret _, st', t) =>
          let '(started, st'') := observe w rest st' in
          (if starts_build w t then now :: started else started, st'')
      | (Raise _, st', _) => ([], st')
      end
  end.

(** Each time of the list is at least a window after the one before it,
    the first after [last]: the test of line 324 fails between neighbours. *)
Fixpoint spaced (last : float) (started : list float) : Prop :=
  match started with
  | [] => True
  | now :: rest =>
      PrimFloat.ltb (PrimFloat.sub now last) DEBOUNCE_SECONDS = false /\ spaced now rest
  end.

(** ** Facts about the manifest walk *)

Lemma json_nested_ind (P : json -> Prop) :
  P JNull ->
  (forall b, P (JBool b)) ->
  (forall n, P (JInt n)) ->
  (forall x, P (JFloat x)) ->
  (forall s, P (JStr s)) ->
  (forall items, Forall P items -> P (JList items)) ->
  (forall items, Forall (fun kv => P (snd kv)) items -> P (JDict items)) ->
  forall v, P v.
Proof.
  intros HN HB HI HF HS HL HD.
  fix IH 1.
  intros [ | b | n | x | s | items | items].
  - exact HN.
  - apply HB.
  - apply HI.
  - apply HF.
  - apply HS.
  - apply HL.
    induction items as [ | inner rest IHrest]; constructor; [apply IH | exact IHrest].
  - apply HD.
    induction items as [ | [key inner] rest IHrest]; constructor; [apply IH | exact IHrest].
Qed.

Lemma walk_JList (items : list json) (urls : gset string) :
  walk (JList items) urls = foldl (fun acc inner => walk inner acc) urls items.
Proof.
  revert urls. induction items as [ | inner rest IH]; intros urls; [reflexivity | ].
  simpl foldl. rewrite <- IH. reflexivity.
Qed.

Lemma walk_JDict (items : list (string * json)) (urls : gset string) :
  walk (JDict items) urls =
  foldl (fun acc kv => if String.eqb (fst kv) "schema_docs" then acc else walk (snd kv) acc)
        urls items.
Proof.
  revert urls. induction items as [ | [key inner] rest IH]; intros urls; [reflexivity | ].
  simpl foldl. rewrite <- IH. reflexivity.
Qed.

(** What [walk] adds to the set: the qualifying strings that occur. *)
Lemma elem_of_walk (value : json) :
  forall (urls : gset string) (u : string),
    u ∈ walk value urls <-> u ∈ urls \/ (is_asset_url u = true /\ occurs u value).
Proof.
  induction value as [ | b | n | x | s | items IH | items IH] using json_nested_ind;
    intros urls u.
  1-4: simpl; split; [auto | intros [H | [_ H]]; [exact H | inversion H]].
  - simpl. destruct (is_asset_url s) eqn:Hs.
    + rewrite elem_of_union, elem_of_singleton. split.
      * intros [-> | H]; [right; split; [exact Hs | constructor] | left; exact H].
      * intros [H | [_ H]]; [right; exact H | left; inversion H; reflexivity].
    + split; [auto | ]. intros [H | [Hu H]]; [exact H | ].
      inversion H; subst. congruence.
  - rewrite walk_JList. revert urls.
    induction IH as [ | inner rest Hinner _ IHrest]; intros urls.
    + simpl. split; [auto | ]. intros [H | [_ H]]; [exact H | ].
      inversion H as [ | ? ? Hin | ]; subst. inversion Hin.
    + simpl. rewrite IHrest, Hinner. split.
      * intros [[H | [Hu H]] | [Hu H]]; [left; exact H | right | right]; (split; [exact Hu | ]).
        -- eapply occurs_in_list; [left | exact H].
        -- inversion H as [ | ? ? Hin Hocc | ]; subst.
           eapply occurs_in_list; [right; exact Hin | exact Hocc].
      * intros [H | [Hu H]]; [left; left; exact H | ].
        inversion H as [ | ? ? Hin Hocc | ]; subst.
        apply elem_of_cons in Hin as [-> | Hin].
        -- left; right; split; assumption.
        -- right; split; [exact Hu | ]. eapply occurs_in_list; eassumption.
  - rewrite walk_JDict. revert urls.
    induction IH as [ | [key inner] rest Hinner _ IHrest]; intros urls.
    + simpl. split; [auto | ]. intros [H | [_ H]]; [exact H | ].
      inversion H as [ | | ? ? ? Hin ]; subst. inversion Hin.
    + simpl in Hinner. simpl. rewrite IHrest.
      destruct (String.eqb_spec key "schema_docs") as [-> | Hkey].
      * split.
        -- intros [H | [Hu H]]; [left; exact H | right; split; [exact Hu | ]].
           inversion H as [ | | ? k i Hin Hk Hocc ]; subst.
           eapply occurs_in_dict; [right; exact Hin | exact Hk | exact Hocc].
        -- intros [H | [Hu H]]; [left; exact H | right; split; [exact Hu | ]].
           inversion H as [ | | ? k i Hin Hk Hocc ]; subst.
           apply elem_of_cons in Hin as [Heq | Hin]; [congruence | ].
           eapply occurs_in_dict; eassumption.
      * rewrite Hinner. split.
        -- intros [[H | [Hu H]] | [Hu H]]; [left; exact H | right | right];
             (split; [exact Hu | ]).
           ++ eapply occurs_in_dict; [left | exact Hkey | exact H].
           ++ inversion H as [ | | ? k i Hin Hk Hocc ]; subst.
              eapply occurs_in_dict; [right; exact Hin | exact Hk | exact Hocc].
        -- intros [H | [Hu H]]; [left; left; exact H | ].
           inversion H as [ | | ? k i Hin Hk Hocc ]; subst.
           apply elem_of_cons in Hin as [Heq | Hin].
           ++ inversion Heq; subst. left; right; split; assumption.
           ++ right; split; [exact Hu | ]. eapply occurs_in_dict; eassumption.
Qed.

(** ** gather_asset_urls *)

(** C4, as amended. For every manifest, [gather_asset_urls] returns exactly
    the set of the strings that start with [http] and contain [supabase.co]
    and that are a string value of the manifest, at any depth, at some
    position not below a key [schema_docs]. *)
Theorem gather_asset_urls_exact (data : json) (u : string) :
  u ∈ gather_asset_urls data <-> is_asset_url u = true /\ occurs u data.
Proof.
  unfold gather_asset_urls. rewrite elem_of_walk. split.
  - intros [H | H]; [ | exact H]. apply elem_of_empty in H. contradiction.
  - intros H. right. exact H.
Qed.

(** C4, as stated, fails: a string whose host is another site is gathered
    as soon as [supabase.co] appears anywhere in it. *)
Lemma gather_asset_urls_ignores_host :
  ~ (forall (data : json) (u : string),
       u ∈ gather_asset_urls data <-> SpecUrl.qualifies u = true /\ occurs u data).
Proof.
  intros H.
  destruct (H (JStr "https://example.com/supabase.co") "https://example.com/supabase.co")
    as [Hgathered _].
  assert (Hin : "https://example.com/supabase.co"
                ∈ gather_asset_urls (JStr "https://example.com/supabase.co")).
  { unfold gather_asset_urls. apply elem_of_walk. right. split; [reflexivity | constructor]. }
  destruct (Hgathered Hin) as [Hq _]. vm_compute in Hq. discriminate Hq.
Qed.

(** *** The test of the code is the wider one

    Every string that qualifies in the words of the specification passes
    the test of the code, so every such URL of the manifest is gathered. *)

Lemma prefix_refl (s : string) : String.prefix s s = true.
Proof.
  induction s as [ | a s IH]; [reflexivity | ].
  simpl. destruct (ascii_dec a a); [exact IH | contradiction].
Qed.

Lemma prefix_append_l (s1 s2 s : string) :
  String.prefix (s1 ++ s2) s = true -> String.prefix s1 s = true.
Proof.
  revert s. induction s1 as [ | a s1 IH]; intros s H; [destruct s; reflexivity | ].
  destruct s as [ | b s]; [discriminate | ].
  simpl in *. destruct (ascii_dec a b); [apply IH; exact H | discriminate].
Qed.

Lemma prefix_contains (sub s : string) :
  String.prefix sub s = true -> PyStr.contains sub s = true.
Proof. intros H. destruct s; cbn [PyStr.contains]; rewrite H; reflexivity. Qed.

Lemma contains_cons (sub s : string) (a : ascii) :
  PyStr.contains sub s = true -> PyStr.contains sub (String a s) = true.
Proof. intros H. cbn [PyStr.contains]. rewrite H. apply orb_true_r. Qed.

Lemma contains_shorter (c : ascii) (sub s : string) :
  PyStr.contains (String c sub) s = true -> PyStr.contains sub s = true.
Proof.
  induction s as [ | a s IH]; [discriminate | ].
  cbn [PyStr.contains]. intros H. apply orb_true_iff in H as [H | H].
  - apply contains_cons, prefix_contains.
    simpl in H. destruct (ascii_dec c a); [exact H | discriminate].
  - apply contains_cons, IH, H.
Qed.

Lemma endswith_contains (s suffix : string) :
  PyStr.endswith s suffix = true -> PyStr.contains suffix s = true.
Proof.
  induction s as [ | a s IH]; cbn [PyStr.endswith]; intros H;
    apply orb_true_iff in H as [H | H]; try discriminate.
  - apply String.eqb_eq in H. subst suffix. reflexivity.
  - apply String.eqb_eq in H. subst suffix. apply prefix_contains, prefix_refl.
  - apply contains_cons, IH, H.
Qed.

Lemma prefix_take_until (stop : ascii -> bool) (x : string) :
  forall sub, String.prefix sub (SpecUrl.take_until stop x) = true ->
              String.prefix sub x = true.
Proof.
  induction x as [ | a x IH]; intros sub H; [exact H | ].
  destruct sub as [ | c sub]; [reflexivity | ].
  cbn [SpecUrl.take_until] in H. destruct (stop a); [discriminate | ].
  simpl in *. destruct (ascii_dec c a); [apply IH; exact H | discriminate].
Qed.

Lemma contains_take_until (stop : ascii -> bool) (sub x : string) :
  PyStr.contains sub (SpecUrl.take_until stop x) = true -> PyStr.contains sub x = true.
Proof.
  induction x as [ | a x IH]; intros H; [exact H | ].
  destruct (PyStr.contains sub (SpecUrl.take_until stop x)) eqn:Hrest.
  { apply contains_cons, IH. reflexivity. }
  apply prefix_contains, (prefix_take_until stop).
  cbn [SpecUrl.take_until] in *. destruct (stop a).
  - destruct sub; [reflexivity | discriminate].
  - cbn [PyStr.contains] in H. rewrite Hrest, orb_false_r in H. exact H.
Qed.

Lemma contains_drop (sub : string) (n : nat) :
  forall x, PyStr.contains sub (PyStr.drop n x) = true -> PyStr.contains sub x = true.
Proof.
  induction n as [ | n IH]; intros x H; [destruct x; exact H | ].
  destruct x as [ | a x]; [exact H | ].
  apply contains_cons, IH, H.
Qed.

Lemma qualifies_is_asset_url (u : string) :
  SpecUrl.qualifies u = true -> is_asset_url u = true.
Proof.
  unfold SpecUrl.qualifies, SpecUrl.after_scheme, is_asset_url, PyStr.startswith.
  intros H. apply andb_true_iff.
  assert (Hhost : forall n,
            SpecUrl.in_domain (SpecUrl.host (SpecUrl.authority (PyStr.drop n u)))
              "supabase.co" = true ->
            PyStr.contains "supabase.co" u = true).
  { intros n Hdomain. apply (contains_drop _ n).
    apply (contains_take_until (SpecUrl.is_one_of "/?#")). fold (SpecUrl.authority (PyStr.drop n u)).
    unfold SpecUrl.host in Hdomain.
    apply (contains_drop _ (Z.to_nat (PyStr.rfind (SpecUrl.authority (PyStr.drop n u)) "@" + 1))).
    apply (contains_take_until (SpecUrl.is_one_of ":")).
    unfold SpecUrl.in_domain in Hdomain. apply orb_true_iff in Hdomain as [Heq | Hend].
    - apply String.eqb_eq in Heq. rewrite Heq. reflexivity.
    - apply (contains_shorter "."), endswith_contains, Hend. }
  destruct (String.prefix "https://" u) eqn:Hs.
  - split; [apply (prefix_append_l "http" "s://"); exact Hs | exact (Hhost 8%nat H)].
  - destruct (String.prefix "http://" u) eqn:Hp; [ | discriminate].
    split; [apply (prefix_append_l "http" "://"); exact Hp | exact (Hhost 7%nat H)].
Qed.

(** A URL that qualifies in the words of the specification and occurs in
    the manifest outside [schema_docs] is gathered, at any depth. *)
Lemma gather_asset_urls_includes_qualifying (data : json) (u : string) :
  SpecUrl.qualifies u = true -> occurs u data -> u ∈ gather_asset_urls data.
Proof.
  intros Hq Hocc. unfold gather_asset_urls. apply elem_of_walk. right.
  split; [apply qualifies_is_asset_url; exact Hq | exact Hocc].
Qed.

(** The manifest of the examples: the two assets are gathered, at depth one
    and two; the documentation URL, the [ftp] URL and the number are not. *)
Example gather_asset_urls_manifest_v1 :
  sorted (gather_asset_urls Examples.manifest_v1)
  = ["https://x.supabase.co/a.png"; "https://x.supabase.co/b.png"].
Proof. vm_compute. reflexivity. Qed.

(** ** Running computations *)

Lemma bind_run {A B} (m : M A) (k : A -> M B) (st st' st'' : state) (a : A)
    (r : outcome B) (t t' : list event) :
  m st = (Ret a, st', t) -> k a st' = (r, st'', t') ->
  bind m k st = (r, st'', (t ++ t')%list).
Proof. intros Hm Hk. unfold bind. rewrite Hm, Hk. reflexivity. Qed.

Lemma bind_raise {A B} (m : M A) (k : A -> M B) (st st' : state) (e : exn)
    (t : list event) :
  m st = (Raise e, st', t) -> bind m k st = (Raise e, st', t).
Proof. intros Hm. unfold bind. rewrite Hm. reflexivity. Qed.

Lemma for_each_print_run (urls : list string) (st : state) :
  for_each urls (fun url => print (msg_missing_url url)) st =
  (Ret tt, st, map (fun url => ev_print (msg_missing_url url)) urls).
Proof.
  induction urls as [ | url rest IH]; [reflexivity | ].
  simpl for_each. erewrite bind_run; [ | reflexivity | exact IH]. reflexivity.
Qed.

Lemma print_missing_run (bad : list string) (st : state) :
  print_missing bad st = (Ret tt, st, missing_trace bad).
Proof.
  unfold print_missing, missing_trace.
  erewrite bind_run; [reflexivity | apply for_each_print_run | ].
  destruct (10 <? length bad)%nat; reflexivity.
Qed.

(** ** check_url *)

Lemma check_url_run (w : world) (url : string) (st : state) :
  request_accepted w url = true ->
  check_url w url st = (Ret (verdict w url), st, map probe_event (probes_of w url)).
Proof.
  intros Hreq.
  unfold check_url, Request, urlopen, bind, try_except, emit, lift, ret,
    verdict, probes_of, answers_405, second_verdict.
  rewrite Hreq. cbn.
  destruct (urlopen_response w HEAD url) as [status | err]; [reflexivity | ].
  destruct err as [code | | | | | | | ]; try reflexivity.
  destruct (code =? 405)%Z; cbn; [ | reflexivity].
  destruct (urlopen_response w GET url) as [status | err]; reflexivity.
Qed.

Lemma check_url_rejected (w : world) (url : string) (st : state) :
  request_accepted w url = false ->
  check_url w url st = (Raise ValueError, st, []).
Proof.
  intros Hreq. unfold check_url, Request, bind, raise. rewrite Hreq. reflexivity.
Qed.

(** The value of [check_url] on a URL that [Request] accepts. *)
Lemma check_url_verdict (w : world) (url : string) (st : state) (b : bool) :
  request_accepted w url = true ->
  (exists t, check_url w url st = (Ret b, st, t)) <-> verdict w url = b.
Proof.
  intros Hacc. rewrite (check_url_run w url st Hacc). split.
  - intros [t Ht]. injection Ht as Hb _. exact Hb.
  - intros <-. eauto.
Qed.

(** C3, as amended. On a URL the request constructor accepts: a first
    probe answered with 405 is followed by a second probe, whose outcome
    decides; any other status that [urlopen] raises as [HTTPError], also
    one below 400, or a network failure on the first probe gives
    unreachable after that one probe; a status that [urlopen] returns from
    the first probe decides at once; a returned status below 400 from
    either probe gives reachable; every error of the second probe gives
    unreachable; and the URL is found reachable in no other case. *)
Theorem check_url_classification (w : world) (url : string) (st : state) :
  request_accepted w url = true ->
  (urlopen_response w HEAD url = Raise (HTTPError 405) ->
     (forall status, urlopen_response w GET url = Ret status ->
        check_url w url st =
        (Ret (status <? 400)%Z, st, [ev_urlopen HEAD url; ev_urlopen GET url])) /\
     (forall err, urlopen_response w GET url = Raise err ->
        check_url w url st =
        (Ret false, st, [ev_urlopen HEAD url; ev_urlopen GET url]))) /\
  (forall err, urlopen_response w HEAD url = Raise err -> err <> HTTPError 405 ->
     check_url w url st = (Ret false, st, [ev_urlopen HEAD url])) /\
  (forall status, urlopen_response w HEAD url = Ret status ->
     check_url w url st = (Ret (status <? 400)%Z, st, [ev_urlopen HEAD url])) /\
  (forall status, (status < 400)%Z ->
     urlopen_response w HEAD url = Ret status \/
     (urlopen_response w HEAD url = Raise (HTTPError 405) /\
      urlopen_response w GET url = Ret status) ->
     exists t, check_url w url st = (Ret true, st, t)) /\
  (forall code, urlopen_response w HEAD url = Raise (HTTPError code) ->
     code <> 405%Z ->
     check_url w url st = (Ret false, st, [ev_urlopen HEAD url])) /\
  (forall t, check_url w url st = (Ret true, st, t) ->
     exists status, (status < 400)%Z /\
       (urlopen_response w HEAD url = Ret status \/
        (urlopen_response w HEAD url = Raise (HTTPError 405) /\
         urlopen_response w GET url = Ret status))).
Proof.
  intros Hreq. rewrite (check_url_run w url st Hreq).
  unfold verdict, probes_of, answers_405, second_verdict.
  split; [ | split; [ | split; [ | split; [ | split]]]].
  - intros Hhead. rewrite Hhead.
    split; [intros status Hget | intros err Hget]; rewrite Hget; reflexivity.
  - intros err Hhead Hne. rewrite Hhead.
    destruct err as [code | | | | | | | ]; try reflexivity.
    destruct (Z.eqb_spec code 405) as [-> | Hcode]; [congruence | reflexivity].
  - intros status Hhead. rewrite Hhead. reflexivity.
  - intros status Hlt [Hhead | [Hhead Hget]].
    + rewrite Hhead. apply Z.ltb_lt in Hlt. rewrite Hlt. eauto.
    + rewrite Hhead, Hget. apply Z.ltb_lt in Hlt. rewrite Hlt. eauto.
  - intros code Hhead Hcode. rewrite Hhead.
    destruct (Z.eqb_spec code 405) as [-> | _]; [congruence | reflexivity].
  - intros t Hrun. injection Hrun as Hverdict _.
    destruct (urlopen_response w HEAD url) as [status | err].
    + exists status. split; [apply Z.ltb_lt; exact Hverdict | left; reflexivity].
    + destruct err as [code | | | | | | | ]; cbn in Hverdict;
        try discriminate Hverdict.
      destruct (Z.eqb_spec code 405) as [Hcode | _]; cbn in Hverdict;
        [subst code | discriminate Hverdict].
      destruct (urlopen_response w GET url) as [status | err]; cbn in Hverdict;
        [ | discriminate Hverdict].
      exists status. split; [apply Z.ltb_lt; exact Hverdict | right; split; reflexivity].
Qed.

Lemma check_url_classification_witness :
  check_url (Examples.machine (Ret Examples.manifest_v1))
            "https://x.supabase.co/b.png" initial_state =
  (Ret true, initial_state,
   [ev_urlopen HEAD "https://x.supabase.co/b.png";
    ev_urlopen GET "https://x.supabase.co/b.png"]).
Proof.
  exact (proj1 (proj1 (check_url_classification
                         (Examples.machine (Ret Examples.manifest_v1))
                         "https://x.supabase.co/b.png" initial_state eq_refl)
                      eq_refl)
               200%Z eq_refl).
Defined.

(** C3, as stated, fails: a status below 400 does not always give
    reachable. A server answers the first probe with 304; [urlopen] raises
    it as [HTTPError], the code is not 405, and the URL is classified
    unreachable after that one probe. *)
Lemma check_url_status_304_unreachable :
  check_url (Examples.answering (Examples.machine (Ret Examples.manifest_v1))
               Examples.not_modified)
    "https://x.supabase.co/a.png" initial_state
  = (Ret false, initial_state, [ev_urlopen HEAD "https://x.supabase.co/a.png"]) /\
  ~ (forall (w : world) (url : string) (st : state) (status : Z),
       request_accepted w url = true ->
       answered_status (urlopen_response w HEAD url) = Some status ->
       (status < 400)%Z ->
       exists t, check_url w url st = (Ret true, st, t)).
Proof.
  split; [vm_compute; reflexivity | ].
  intros H.
  destruct (H (Examples.answering (Examples.machine (Ret Examples.manifest_v1))
                 Examples.not_modified)
              "https://x.supabase.co/a.png" initial_state 304%Z
              eq_refl eq_refl eq_refl) as [t Ht].
  vm_compute in Ht. discriminate Ht.
Qed.

(** ** Reading the traces of the verification *)

Lemma probes_probe_events (ps : list (method * string)) :
  probes (map probe_event ps) = ps.
Proof.
  induction ps as [ | [meth url] rest IH]; [reflexivity | ].
  cbn. unfold probes in IH. rewrite IH. reflexivity.
Qed.

Lemma probes_check_each_trace (w : world) (urls : list string) (index total : nat) :
  probes (check_each_trace w urls index total) = flat_map (probes_of w) urls.
Proof.
  revert index. induction urls as [ | url rest IH]; intros index; [reflexivity | ].
  cbn [check_each_trace flat_map]. unfold probes in *.
  rewrite !omap_app. fold (probes (map probe_event (probes_of w url))).
  rewrite probes_probe_events, IH.
  destruct (index mod 100 =? 0)%nat; reflexivity.
Qed.

Lemma listed_urls_probe_events (ps : list (method * string)) :
  listed_urls (map probe_event ps) = [] /\
  truncation_notes (map probe_event ps) = [] /\
  spawned (map probe_event ps) = [].
Proof.
  induction ps as [ | p rest (IH1 & IH2 & IH3)]; [repeat split | ].
  cbn. repeat split; assumption.
Qed.

(** The loop lists nothing and starts no process. *)
Lemma check_each_trace_quiet (w : world) (urls : list string) (index total : nat) :
  listed_urls (check_each_trace w urls index total) = [] /\
  truncation_notes (check_each_trace w urls index total) = [] /\
  spawned (check_each_trace w urls index total) = [].
Proof.
  revert index. induction urls as [ | url rest IH]; intros index; [repeat split | ].
  cbn [check_each_trace]. unfold listed_urls, truncation_notes, spawned in *.
  rewrite !omap_app.
  destruct (listed_urls_probe_events (probes_of w url)) as (H1 & H2 & H3).
  unfold listed_urls, truncation_notes, spawned in H1, H2, H3.
  rewrite H1, H2, H3.
  destruct (IH (S index)) as (I1 & I2 & I3). rewrite I1, I2, I3.
  destruct (index mod 100 =? 0)%nat; repeat split.
Qed.

Lemma missing_trace_reading (bad : list string) :
  listed_urls (missing_trace bad) = take 10 bad /\
  truncation_notes (missing_trace bad) =
    (if (10 <? length bad)%nat then [(length bad - 10)%nat] else []) /\
  spawned (missing_trace bad) = [] /\
  probes (missing_trace bad) = [].
Proof.
  unfold missing_trace, listed_urls, truncation_notes, spawned, probes.
  rewrite !omap_app.
  assert (Hlines : forall urls : list string,
    omap (fun e => match e with ev_print (msg_missing_url url) => Some url | _ => None end)
         (map (fun url => ev_print (msg_missing_url url)) urls) = urls /\
    omap (fun e => match e with ev_print (msg_and_more n) => Some n | _ => None end)
         (map (fun url => ev_print (msg_missing_url url)) urls) = [] /\
    omap (fun e => match e with ev_subprocess cmd _ _ => Some cmd | _ => None end)
         (map (fun url => ev_print (msg_missing_url url)) urls) = [] /\
    omap (fun e => match e with ev_urlopen meth url => Some (meth, url) | _ => None end)
         (map (fun url => ev_print (msg_missing_url url)) urls) = []).
  { induction urls as [ | url rest (I1 & I2 & I3 & I4)]; [repeat split | ].
    cbn. rewrite I1, I2, I3, I4. repeat split. }
  destruct (Hlines (take 10 bad)) as (H1 & H2 & H3 & H4).
  rewrite H1, H2, H3, H4.
  destruct (10 <? length bad)%nat; cbn; rewrite ?app_nil_r; repeat split.
Qed.

(** ** sorted *)

Lemma elem_of_sorted (urls : gset string) (u : string) :
  u ∈ sorted urls <-> u ∈ urls.
Proof.
  unfold sorted. rewrite (merge_sort_Permutation str_le (elements urls)).
  apply elem_of_elements.
Qed.

Lemma sorted_nil (urls : gset string) : sorted urls = [] <-> urls = ∅.
Proof.
  split.
  - intros Hnil. apply set_eq. intros u. rewrite <- elem_of_sorted, Hnil.
    split; [intros H; inversion H | intros H; apply elem_of_empty in H; contradiction].
  - intros ->. reflexivity.
Qed.

(** ** The loop over the URLs *)

Lemma check_each_run (w : world) (urls : list string) :
  forall (index total : nat) (bad : list string) (st : state),
    Forall (fun u => request_accepted w u = true) urls ->
    check_each w urls index total bad st =
    (Ret (bad ++ List.filter (fun u => negb (verdict w u)) urls)%list, st,
     check_each_trace w urls index total).
Proof.
  induction urls as [ | url rest IH]; intros index total bad st Hacc.
  - cbn. rewrite app_nil_r. reflexivity.
  - apply Forall_cons in Hacc as [Hurl Hrest].
    cbn [check_each check_each_trace List.filter].
    erewrite bind_run; [reflexivity | apply check_url_run; exact Hurl | ].
    erewrite bind_run; [ | | apply IH; exact Hrest].
    + instantiate (1 := if (index mod 100 =? 0)%nat
                        then [ev_print (msg_checked index total)] else []).
      destruct (verdict w url); cbn [negb]; [reflexivity | ].
      rewrite <- app_assoc. reflexivity.
    + destruct (index mod 100 =? 0)%nat; reflexivity.
Qed.

(** The loop stops at the first URL that [Request] refuses: the exception
    leaves [check_url], the loop and [verify_assets]. *)
Lemma check_each_raises (w : world) (before : list string) (url : string)
    (after : list string) :
  forall (index total : nat) (bad : list string) (st : state),
    Forall (fun u => request_accepted w u = true) before ->
    request_accepted w url = false ->
    check_each w (before ++ url :: after) index total bad st =
    (Raise ValueError, st, check_each_trace w before index total).
Proof.
  induction before as [ | first rest IH]; intros index total bad st Hacc Hurl.
  - cbn [app check_each check_each_trace].
    erewrite bind_raise; [reflexivity | apply check_url_rejected; exact Hurl].
  - apply Forall_cons in Hacc as [Hfirst Hrest].
    cbn [app check_each check_each_trace].
    erewrite bind_run; [reflexivity | apply check_url_run; exact Hfirst | ].
    destruct (index mod 100 =? 0)%nat.
    + erewrite bind_run; [reflexivity | reflexivity | ].
      erewrite IH by assumption. reflexivity.
    + erewrite bind_run; [reflexivity | reflexivity | ].
      erewrite IH by assumption. reflexivity.
Qed.

(** Either every URL is accepted, or there is a first one that is not. *)
Lemma first_refused (w : world) (urls : list string) :
  Forall (fun u => request_accepted w u = true) urls \/
  exists before url after,
    urls = (before ++ url :: after)%list /\
    Forall (fun u => request_accepted w u = true) before /\
    request_accepted w url = false.
Proof.
  induction urls as [ | url rest [IH | (before & bad & after & -> & Hb & Hbad)]].
  - left. constructor.
  - destruct (request_accepted w url) eqn:Hurl.
    + left. constructor; assumption.
    + right. exists [], url, rest. repeat split; [constructor | exact Hurl].
  - destruct (request_accepted w url) eqn:Hurl.
    + right. exists (url :: before), bad, after.
      repeat split; [constructor; assumption | exact Hbad].
    + right. exists [], url, (before ++ bad :: after)%list.
      repeat split; [constructor | exact Hurl].
Qed.

(** ** verify_assets, path by path *)

Lemma verify_assets_run (w : world) (st : state) :
  verify_assets w st =
  match manifest_response w with
  | Raise err => (Ret false, st, [ev_fetch_manifest; ev_print (msg_asset_check_failed err)])
  | Ret manifest =>
      match py_get manifest "exported_at" with
      | Raise err => (Raise err, st, [ev_fetch_manifest])
      | Ret exported =>
          match cache_hit (ASSET_CHECK_CACHE st) exported with
          | Some cached_bad =>
              (Ret (is_empty cached_bad), st, ev_fetch_manifest :: cached_report cached_bad)
          | None =>
              match sorted (gather_asset_urls manifest) with
              | [] => (Ret false, st, [ev_fetch_manifest; ev_print msg_no_urls_found])
              | url :: rest =>
                  match check_each w (url :: rest) 1 (length (url :: rest)) [] st with
                  | (Raise err, st', t) => (Raise err, st', ev_fetch_manifest :: t)
                  | (Ret bad, st', t) =>
                      (Ret (is_empty bad),
                       set_cache {| exported_at := exported; bad_urls := Some bad |} st',
                       ev_fetch_manifest :: (t ++ fresh_report (length (url :: rest)) bad)%list)
                  end
              end
          end
      end
  end.
Proof.
  unfold verify_assets, bind, try_except, fetch_asset_manifest, emit, lift,
    get_state, put_state, ret, print.
  destruct (manifest_response w) as [manifest | err]; [ | reflexivity].
  cbn -[sorted check_each print_missing].
  destruct (py_get manifest "exported_at") as [exported | err]; [ | reflexivity].
  destruct (cache_hit (ASSET_CHECK_CACHE st) exported) as [[ | u cached] | ].
  - reflexivity.
  - cbn -[print_missing length]. rewrite print_missing_run.
    cbn -[missing_trace length]. rewrite app_nil_r. reflexivity.
  - destruct (sorted (gather_asset_urls manifest)) as [ | url rest]; [reflexivity | ].
    cbn [length].
    destruct (check_each w (url :: rest) 1 (S (length rest)) [] st)
      as [[[bad | err] st'] t]; [ | reflexivity].
    destruct bad as [ | b bad].
    + cbn. reflexivity.
    + cbn -[print_missing length]. rewrite print_missing_run.
      cbn -[missing_trace length]. rewrite app_nil_r. reflexivity.
Qed.

Lemma cached_report_reading (bad : list string) :
  listed_urls (cached_report bad) = take 10 bad /\
  truncation_notes (cached_report bad) =
    (if (10 <? length bad)%nat then [(length bad - 10)%nat] else []) /\
  spawned (cached_report bad) = [] /\
  probes (cached_report bad) = [].
Proof.
  destruct bad as [ | b bad]; [repeat split | ].
  exact (missing_trace_reading (b :: bad)).
Qed.

Lemma fresh_report_reading (total : nat) (bad : list string) :
  listed_urls (fresh_report total bad) = take 10 bad /\
  truncation_notes (fresh_report total bad) =
    (if (10 <? length bad)%nat then [(length bad - 10)%nat] else []) /\
  spawned (fresh_report total bad) = [] /\
  probes (fresh_report total bad) = [].
Proof.
  destruct bad as [ | b bad]; [repeat split | ].
  exact (missing_trace_reading (b :: bad)).
Qed.

(** A hit on the cache: the answer comes from the cached list, without a
    probe and without a change of state. *)
Lemma verify_assets_cache_hit (w : world) (st : state) (manifest exported : json)
    (cached_bad : list string) :
  manifest_response w = Ret manifest ->
  py_get manifest "exported_at" = Ret exported ->
  py_eq (exported_at (ASSET_CHECK_CACHE st)) exported = true ->
  bad_urls (ASSET_CHECK_CACHE st) = Some cached_bad ->
  exists t,
    verify_assets w st = (Ret (is_empty cached_bad), st, t) /\ probes t = [].
Proof.
  intros Hfetch Hget Heq Hbad.
  rewrite verify_assets_run, Hfetch, Hget. unfold cache_hit. rewrite Heq, Hbad.
  eexists. split; [reflexivity | ].
  apply cached_report_reading.
Qed.

(** A miss on the cache, when [Request] accepts every extracted URL: the
    first probe goes to each of them. *)
Lemma verify_assets_miss_probes_all (w : world) (st : state) (manifest exported : json) :
  manifest_response w = Ret manifest ->
  py_get manifest "exported_at" = Ret exported ->
  cache_hit (ASSET_CHECK_CACHE st) exported = None ->
  Forall (fun u => request_accepted w u = true) (sorted (gather_asset_urls manifest)) ->
  exists reachable bad t,
    verify_assets w st =
    (Ret reachable,
     (if is_empty (sorted (gather_asset_urls manifest)) then st
      else set_cache {| exported_at := exported; bad_urls := Some bad |} st), t) /\
    probes t = flat_map (probes_of w) (sorted (gather_asset_urls manifest)) /\
    forall u, u ∈ gather_asset_urls manifest -> (HEAD, u) ∈ probes t.
Proof.
  intros Hfetch Hget Hmiss Hacc.
  rewrite verify_assets_run, Hfetch, Hget, Hmiss.
  assert (Hall : forall urls : list string, forall u, u ∈ urls ->
            (HEAD, u) ∈ flat_map (probes_of w) urls).
  { intros urls u Hu. apply list_elem_of_In, in_flat_map. exists u.
    split; [apply list_elem_of_In; exact Hu | left; reflexivity]. }
  destruct (sorted (gather_asset_urls manifest)) as [ | url rest] eqn:Hsorted.
  - exists false, [], [ev_fetch_manifest; ev_print msg_no_urls_found].
    split; [reflexivity | ]. split; [reflexivity | ].
    intros u Hu. apply elem_of_sorted in Hu. rewrite Hsorted in Hu. inversion Hu.
  - rewrite (check_each_run w (url :: rest) 1 _ [] st Hacc).
    eexists _, _, _. split; [reflexivity | ].
    assert (Hprobes :
      probes (ev_fetch_manifest ::
              (check_each_trace w (url :: rest) 1 (length (url :: rest)) ++
               fresh_report (length (url :: rest))
                 ([] ++ List.filter (fun u => negb (verdict w u)) (url :: rest)))%list)
      = flat_map (probes_of w) (url :: rest)).
    { change (probes (ev_fetch_manifest :: ?t)) with (probes t).
      unfold probes. rewrite omap_app. fold (probes (check_each_trace w (url :: rest) 1
        (length (url :: rest)))).
      rewrite probes_check_each_trace.
      destruct (fresh_report_reading (length (url :: rest))
                  ([] ++ List.filter (fun u => negb (verdict w u)) (url :: rest))%list)
        as (_ & _ & _ & Hnone).
      unfold probes in Hnone. rewrite Hnone. apply app_nil_r. }
    split; [exact Hprobes | ].
    intros u Hu. rewrite Hprobes. apply Hall.
    rewrite <- Hsorted. apply elem_of_sorted. exact Hu.
Qed.

(** C6. When the fetch of the manifest fails, [verify_assets] returns
    [False] at once: it has made no probe, it has printed the failure, and
    the cache (token and list) is as before. *)
Theorem verify_assets_fetch_failure (w : world) (st : state) (err : exn) :
  manifest_response w = Raise err ->
  verify_assets w st =
    (Ret false, st, [ev_fetch_manifest; ev_print (msg_asset_check_failed err)]) /\
  probes [ev_fetch_manifest; ev_print (msg_asset_check_failed err)] = [].
Proof.
  intros Hfetch. rewrite verify_assets_run, Hfetch. split; reflexivity.
Qed.

Lemma verify_assets_fetch_failure_witness :
  verify_assets (Examples.machine (Raise URLError)) initial_state =
    (Ret false, initial_state,
     [ev_fetch_manifest; ev_print (msg_asset_check_failed URLError)]) /\
  probes [ev_fetch_manifest; ev_print (msg_asset_check_failed URLError)] = [].
Proof.
  exact (verify_assets_fetch_failure (Examples.machine (Raise URLError))
           initial_state URLError eq_refl).
Defined.

(** On a miss of the cache, a manifest that is a mapping and from which no
    URL is extracted makes [verify_assets] return [False]; nothing is probed
    or cached. *)
Lemma verify_assets_no_urls (w : world) (st : state) (manifest exported : json) :
  manifest_response w = Ret manifest ->
  py_get manifest "exported_at" = Ret exported ->
  cache_hit (ASSET_CHECK_CACHE st) exported = None ->
  gather_asset_urls manifest = ∅ ->
  verify_assets w st = (Ret false, st, [ev_fetch_manifest; ev_print msg_no_urls_found]).
Proof.
  intros Hfetch Hget Hmiss Hnone.
  rewrite verify_assets_run, Hfetch, Hget, Hmiss.
  apply sorted_nil in Hnone. rewrite Hnone. reflexivity.
Qed.

Example verify_assets_no_urls_in_mapping :
  verify_assets (Examples.machine (Ret Examples.manifest_no_assets)) initial_state =
  (Ret false, initial_state, [ev_fetch_manifest; ev_print msg_no_urls_found]).
Proof.
  exact (verify_assets_no_urls (Examples.machine (Ret Examples.manifest_no_assets))
           initial_state Examples.manifest_no_assets (JStr "v3")
           eq_refl eq_refl eq_refl eq_refl).
Qed.

(** C7 at an input where the code breaks it. The endpoint answers with the
    JSON array [[]]. The fetch succeeds, no list is cached, and no URL is
    extracted from the body, so the specification has [verify_assets] return
    [False]. The body is not a mapping: [manifest.get] at line 128, outside
    the [try], raises [AttributeError]. The call returns nothing, the
    message of line 143 is not printed, and the exception leaves the turn
    of the key A of the main loop as well. *)
Theorem verify_assets_raises_on_array_manifest :
  manifest_response (Examples.machine (Ret (JList []))) = Ret (JList []) /\
  bad_urls (ASSET_CHECK_CACHE initial_state) = None /\
  gather_asset_urls (JList []) = ∅ /\
  verify_assets (Examples.machine (Ret (JList []))) initial_state =
    (Raise AttributeError, initial_state, [ev_fetch_manifest]) /\
  (forall (st' : state) (t : list event),
     verify_assets (Examples.machine (Ret (JList []))) initial_state
     <> (Ret false, st', t)) /\
  handle_key (Examples.machine (Ret (JList []))) (Some "a") initial_state =
    (Raise AttributeError, initial_state,
     [ev_print msg_manual_asset_check; ev_fetch_manifest]).
Proof.
  assert (Hrun : verify_assets (Examples.machine (Ret (JList []))) initial_state =
                 (Raise AttributeError, initial_state, [ev_fetch_manifest])).
  { rewrite verify_assets_run. reflexivity. }
  split; [reflexivity | ]. split; [reflexivity | ]. split; [reflexivity | ].
  split; [exact Hrun | ].
  split; [intros st' t H; rewrite Hrun in H; discriminate H | ].
  vm_compute. reflexivity.
Qed.

(** What a failed verification has listed, by the reason of the failure:
    nothing when the fetch failed or no URL was extracted; on a hit the
    first ten of the cached list; after a pass the first ten of the list of
    the pass; and the note exactly when the list is longer than ten. *)
Lemma verify_assets_false_cases (w : world) (st st' : state) (t : list event) :
  verify_assets w st = (Ret false, st', t) ->
  spawned t = [] /\
  (forall err, manifest_response w = Raise err ->
     st' = st /\ listed_urls t = [] /\ truncation_notes t = []) /\
  (forall manifest exported,
     manifest_response w = Ret manifest ->
     py_get manifest "exported_at" = Ret exported ->
     (forall cached_bad,
        cache_hit (ASSET_CHECK_CACHE st) exported = Some cached_bad ->
        cached_bad <> [] /\ st' = st /\
        listed_urls t = take 10 cached_bad /\
        truncation_notes t =
          (if (10 <? length cached_bad)%nat then [(length cached_bad - 10)%nat] else [])) /\
     (cache_hit (ASSET_CHECK_CACHE st) exported = None ->
      gather_asset_urls manifest = ∅ ->
      st' = st /\ listed_urls t = [] /\ truncation_notes t = []) /\
     (cache_hit (ASSET_CHECK_CACHE st) exported = None ->
      gather_asset_urls manifest <> ∅ ->
      exists bad,
        bad <> [] /\
        st' = set_cache {| exported_at := exported; bad_urls := Some bad |} st /\
        (forall u, u ∈ bad <->
           u ∈ gather_asset_urls manifest /\
           exists tu, check_url w u st = (Ret false, st, tu)) /\
        listed_urls t = take 10 bad /\
        truncation_notes t =
          (if (10 <? length bad)%nat then [(length bad - 10)%nat] else []))).
Proof.
  rewrite verify_assets_run.
  destruct (manifest_response w) as [manifest | err] eqn:Hfetch.
  2: { intros H. injection H as <- <-. split; [reflexivity | ].
       split; [intros; repeat split | discriminate]. }
  destruct (py_get manifest "exported_at") as [exported | err] eqn:Hget; [ | discriminate].
  destruct (cache_hit (ASSET_CHECK_CACHE st) exported) as [cached | ] eqn:Hhit.
  - intros H. injection H as Hempty <- <-.
    destruct (cached_report_reading cached) as (Hl & Hn & Hs & _).
    split; [exact Hs | ]. split; [discriminate | ].
    intros m e Hm He. injection Hm as <-. rewrite Hget in He. injection He as <-.
    rewrite Hhit. split; [ | split; discriminate].
    intros cached_bad Hc. injection Hc as <-.
    split; [intros ->; discriminate Hempty | ]. split; [reflexivity | split; assumption].
  - destruct (sorted (gather_asset_urls manifest)) as [ | url rest] eqn:Hsorted.
    { intros H. injection H as <- <-. split; [reflexivity | ]. split; [discriminate | ].
      intros m e Hm He. injection Hm as <-. rewrite Hget in He. injection He as <-.
      rewrite Hhit. split; [discriminate | ].
      split; [intros _ _; repeat split | ].
      intros _ Hsome. apply sorted_nil in Hsorted. contradiction. }
    assert (Hsome : gather_asset_urls manifest <> ∅).
    { intros Hnone. apply sorted_nil in Hnone. congruence. }
    destruct (first_refused w (url :: rest))
      as [Hacc | (before & refused & after & Hsplit & Hbefore & Hrefused)].
    2: { rewrite Hsplit, check_each_raises by assumption. discriminate. }
    rewrite (check_each_run w (url :: rest) 1 _ [] st Hacc).
    rewrite app_nil_l.
    assert (Hbad : forall u,
              u ∈ List.filter (fun u => negb (verdict w u)) (url :: rest) <->
              u ∈ gather_asset_urls manifest /\
              exists tu, check_url w u st = (Ret false, st, tu)).
    { intros u. rewrite <- Hsorted in *. rewrite <- elem_of_sorted. split.
      - intros Hu. apply list_elem_of_In, filter_In in Hu as [Hin Hv].
        apply list_elem_of_In in Hin. split; [exact Hin | ].
        apply check_url_verdict; [ | apply negb_true_iff; exact Hv].
        rewrite Forall_forall in Hacc. exact (Hacc u Hin).
      - intros [Hin Hfalse]. apply list_elem_of_In, filter_In.
        split; [apply list_elem_of_In; exact Hin | ].
        apply negb_true_iff. apply (check_url_verdict w u st false); [ | exact Hfalse].
        rewrite Forall_forall in Hacc. exact (Hacc u Hin). }
    remember (List.filter (fun u => negb (verdict w u)) (url :: rest)) as bad eqn:Ebad.
    clear Ebad.
    destruct (check_each_trace_quiet w (url :: rest) 1 (length (url :: rest)))
      as (Hl1 & Hn1 & Hs1).
    destruct (fresh_report_reading (length (url :: rest)) bad) as (Hl2 & Hn2 & Hs2 & _).
    remember (check_each_trace w (url :: rest) 1 (length (url :: rest))) as loop eqn:E1.
    remember (fresh_report (length (url :: rest)) bad) as report eqn:E2.
    clear E1 E2.
    intros H. injection H as Hempty Hst Ht. subst st' t.
    unfold listed_urls, truncation_notes, spawned in *.
    simpl. rewrite !omap_app, Hl1, Hn1, Hs1, Hl2, Hn2, Hs2.
    split; [reflexivity | ]. split; [discriminate | ].
    intros m e Hm He. injection Hm as <-. rewrite Hget in He. injection He as <-.
    rewrite Hhit. split; [discriminate | ].
    split; [intros _ Hnone; contradiction | ].
    intros _ _. exists bad.
    split; [intros Hnil; rewrite Hnil in Hempty; discriminate | ].
    split; [reflexivity | ]. split; [exact Hbad | split; reflexivity].
Qed.

(** ** trigger_tts_reload and the ungated build *)

Lemma trigger_tts_reload_run (w : world) (st : state) :
  exists t, trigger_tts_reload w st = (Ret tt, st, t) /\ quiet t.
Proof.
  unfold trigger_tts_reload, try_except, bind, subprocess_run, emit, lift, ret,
    raise, print, quiet.
  destruct (gui_modules w); cbn.
  2: { eexists. split; [reflexivity | repeat constructor]. }
  destruct (window_titles w) as [titles | err]; cbn.
  2: { destruct err; eexists; (split; [reflexivity | repeat constructor]). }
  destruct (existsb (PyStr.contains "Tabletop Simulator") titles); cbn.
  2: { eexists. split; [reflexivity | repeat constructor]. }
  destruct (subprocess_response w ["osascript"; "-e"; activate_script]) as [done | err]; cbn.
  2: { destruct err; eexists; (split; [reflexivity | repeat constructor]). }
  destruct (hotkey_response w) as [[] | err]; cbn.
  2: { destruct err; eexists; (split; [reflexivity | repeat constructor]). }
  eexists. split; [reflexivity | repeat constructor].
Qed.

(** A build that is not gated: the build tool is started, the state is
    untouched, and neither the manifest nor an asset is requested. *)
Lemma run_build_ungated (w : world) (st : state) :
  exists t,
    run_build w false st =
    (Ret tt, st,
     ev_print msg_rule_after_newline :: ev_print (msg_building (time_strftime w)) ::
     ev_print msg_rule ::
     ev_subprocess (build_cmd w) (Some (TTSMODMANAGER_DIR w)) 60 :: t) /\
    quiet t.
Proof.
  unfold run_build, try_except, bind, subprocess_run, emit, lift, ret, print, quiet.
  cbn -[build_cmd TTSMODMANAGER_DIR trigger_tts_reload].
  destruct (subprocess_response w (build_cmd w)) as [[code text] | err];
    cbn -[build_cmd TTSMODMANAGER_DIR trigger_tts_reload].
  2: { destruct err; eexists; (split; [reflexivity | repeat constructor]). }
  destruct (code =? 0)%Z; cbn -[build_cmd TTSMODMANAGER_DIR trigger_tts_reload].
  2: { eexists. split; [reflexivity | repeat constructor]. }
  destruct (trigger_tts_reload_run w st) as (t & Hrun & Hquiet). rewrite Hrun.
  eexists. split; [reflexivity | ]. constructor; [reflexivity | exact Hquiet].
Qed.

(** C5. When a gated build is requested and [verify_assets] returns
    [False], no child process is started, the build is reported as skipped,
    and at most ten URLs are listed. What is listed follows from the reason
    of the failure. After a failed fetch, and after a miss on a manifest
    without URLs, no URL is listed and there is no note. On a hit of the
    cache the first ten of the cached list are listed, which is not empty.
    After a pass the list is the one now cached, exactly the extracted URLs
    for which [check_url] returned [False], and its first ten are listed.
    In both cases the note gives the remaining count, and it is printed
    exactly when the list has more than ten. *)
Theorem gated_build_skipped (w : world) (st st' : state) (t : list event) :
  verify_assets w st = (Ret false, st', t) ->
  run_build w true st = (Ret tt, st', (t ++ [ev_print msg_build_skipped])%list) /\
  spawned (t ++ [ev_print msg_build_skipped])%list = [] /\
  (length (listed_urls (t ++ [ev_print msg_build_skipped])%list) <= 10)%nat /\
  (forall err, manifest_response w = Raise err ->
     st' = st /\
     listed_urls (t ++ [ev_print msg_build_skipped])%list = [] /\
     truncation_notes (t ++ [ev_print msg_build_skipped])%list = []) /\
  (forall manifest exported,
     manifest_response w = Ret manifest ->
     py_get manifest "exported_at" = Ret exported ->
     (forall cached_bad,
        cache_hit (ASSET_CHECK_CACHE st) exported = Some cached_bad ->
        cached_bad <> [] /\ st' = st /\
        listed_urls (t ++ [ev_print msg_build_skipped])%list = take 10 cached_bad /\
        truncation_notes (t ++ [ev_print msg_build_skipped])%list =
          (if (10 <? length cached_bad)%nat then [(length cached_bad - 10)%nat] else [])) /\
     (cache_hit (ASSET_CHECK_CACHE st) exported = None ->
      gather_asset_urls manifest = ∅ ->
      st' = st /\
      listed_urls (t ++ [ev_print msg_build_skipped])%list = [] /\
      truncation_notes (t ++ [ev_print msg_build_skipped])%list = []) /\
     (cache_hit (ASSET_CHECK_CACHE st) exported = None ->
      gather_asset_urls manifest <> ∅ ->
      exists bad,
        bad <> [] /\
        st' = set_cache {| exported_at := exported; bad_urls := Some bad |} st /\
        (forall u, u ∈ bad <->
           u ∈ gather_asset_urls manifest /\
           exists tu, check_url w u st = (Ret false, st, tu)) /\
        listed_urls (t ++ [ev_print msg_build_skipped])%list = take 10 bad /\
        truncation_notes (t ++ [ev_print msg_build_skipped])%list =
          (if (10 <? length bad)%nat then [(length bad - 10)%nat] else []))).
Proof.
  intros Hverify.
  destruct (verify_assets_false_cases w st st' t Hverify) as (Hspawned & Hfailed & Hcases).
  assert (Hl : listed_urls (t ++ [ev_print msg_build_skipped])%list = listed_urls t).
  { unfold listed_urls. rewrite omap_app. apply app_nil_r. }
  assert (Hn : truncation_notes (t ++ [ev_print msg_build_skipped])%list
               = truncation_notes t).
  { unfold truncation_notes. rewrite omap_app. apply app_nil_r. }
  assert (Hs : spawned (t ++ [ev_print msg_build_skipped])%list = spawned t).
  { unfold spawned. rewrite omap_app. apply app_nil_r. }
  rewrite Hl, Hn, Hs.
  split.
  { unfold run_build, bind at 1. unfold bind at 1. rewrite Hverify.
    cbn. rewrite app_nil_r. reflexivity. }
  split; [exact Hspawned | ].
  split; [ | split; [exact Hfailed | exact Hcases]].
  destruct (manifest_response w) as [manifest | err] eqn:Hfetch.
  2: { destruct (Hfailed err eq_refl) as (_ & -> & _). cbn. lia. }
  destruct (py_get manifest "exported_at") as [exported | err] eqn:Hget.
  2: { rewrite verify_assets_run, Hfetch, Hget in Hverify. discriminate Hverify. }
  destruct (Hcases manifest exported eq_refl Hget) as (Hhit & Hnone & Hpass).
  destruct (cache_hit (ASSET_CHECK_CACHE st) exported) as [cached | ].
  { destruct (Hhit cached eq_refl) as (_ & _ & -> & _). rewrite length_take. lia. }
  destruct (decide (gather_asset_urls manifest = ∅)) as [Hempty | Hsome].
  { destruct (Hnone eq_refl Hempty) as (_ & -> & _). cbn. lia. }
  destruct (Hpass eq_refl Hsome) as (bad & _ & _ & _ & -> & _).
  rewrite length_take. lia.
Qed.

Lemma gated_build_skipped_witness :
  run_build (Examples.machine (Ret Examples.manifest_gone)) true initial_state =
  (Ret tt,
   set_cache {| exported_at := JStr "v4";
                bad_urls := Some ["https://x.supabase.co/gone.png"] |} initial_state,
   [ev_fetch_manifest;
    ev_urlopen HEAD "https://x.supabase.co/a.png";
    ev_urlopen HEAD "https://x.supabase.co/gone.png";
    ev_print (msg_asset_check_failed_missing 1);
    ev_print (msg_missing_url "https://x.supabase.co/gone.png");
    ev_print msg_build_skipped]).
Proof.
  exact (proj1 (gated_build_skipped
                  (Examples.machine (Ret Examples.manifest_gone)) initial_state
                  (set_cache {| exported_at := JStr "v4";
                                bad_urls := Some ["https://x.supabase.co/gone.png"] |}
                             initial_state)
                  [ev_fetch_manifest;
                   ev_urlopen HEAD "https://x.supabase.co/a.png";
                   ev_urlopen HEAD "https://x.supabase.co/gone.png";
                   ev_print (msg_asset_check_failed_missing 1);
                   ev_print (msg_missing_url "https://x.supabase.co/gone.png")]
                  eq_refl)).
Defined.

(** Line 131 on tokens that hold a NaN: the token [NaN] differs from itself,
    so it never hits the cache, while the token [[NaN]] equals itself. *)
Example cache_hit_nan_tokens :
  cache_hit {| exported_at := JFloat nan; bad_urls := Some [] |} (JFloat nan) = None /\
  cache_hit {| exported_at := JList [JFloat nan]; bad_urls := Some [] |}
    (JList [JFloat nan]) = Some [].
Proof. split; reflexivity. Qed.

(** ** Two calls in a row *)

(** C1 at an input where the code breaks it. A first call verifies the
    manifest of version [v1] and caches an empty list. The manifest then
    changes to version [v2]; two URLs are extracted from it, and the first
    in sorted order has no colon after [http]. [Request] raises
    [ValueError] for it at line 102, outside the [try]: the second call
    ends with that exception before any probe, so neither extracted URL is
    probed again, and the cache still holds version [v1]. *)
Theorem verify_assets_stops_at_refused_url :
  exists st1 t1,
    verify_assets (Examples.machine (Ret Examples.manifest_v1)) initial_state
      = (Ret true, st1, t1) /\
    exported_at (ASSET_CHECK_CACHE st1) = JStr "v1" /\
    bad_urls (ASSET_CHECK_CACHE st1) = Some [] /\
    py_get Examples.manifest_typo "exported_at" = Ret (JStr "v2") /\
    py_eq (exported_at (ASSET_CHECK_CACHE st1)) (JStr "v2") = false /\
    sorted (gather_asset_urls Examples.manifest_typo)
      = ["http//x.supabase.co/a.png"; "https://x.supabase.co/b.png"] /\
    verify_assets (Examples.machine (Ret Examples.manifest_typo)) st1
      = (Raise ValueError, st1, [ev_fetch_manifest]).
Proof.
  eexists _, _. split; [vm_compute; reflexivity | ].
  repeat split; vm_compute; reflexivity.
Qed.

(** A manifest with a reachable and an unreachable asset: the first call
    probes both and caches the unreachable one; the second call, on the
    same version, answers from the cache without a probe. *)
Example verify_assets_then_cached :
  let w := Examples.machine (Ret Examples.manifest_gone) in
  let st1 := set_cache {| exported_at := JStr "v4";
                          bad_urls := Some ["https://x.supabase.co/gone.png"] |}
                       initial_state in
  verify_assets w initial_state =
    (Ret false, st1,
     [ev_fetch_manifest;
      ev_urlopen HEAD "https://x.supabase.co/a.png";
      ev_urlopen HEAD "https://x.supabase.co/gone.png";
      ev_print (msg_asset_check_failed_missing 1);
      ev_print (msg_missing_url "https://x.supabase.co/gone.png")]) /\
  verify_assets w st1 =
    (Ret false, st1,
     [ev_fetch_manifest;
      ev_print (msg_asset_check_failed_cached 1);
      ev_print (msg_missing_url "https://x.supabase.co/gone.png")]).
Proof. split; vm_compute; reflexivity. Qed.

(** Twelve unreachable assets: ten are listed and the note counts two. *)
Example gated_build_lists_ten_of_twelve :
  let '(r, st, t) :=
    run_build (Examples.machine (Ret Examples.manifest_many_gone)) true initial_state in
  r = Ret tt /\
  spawned t = [] /\
  length (listed_urls t) = 10%nat /\
  truncation_notes t = [2%nat] /\
  option_map (@length string) (bad_urls (ASSET_CHECK_CACHE st)) = Some 12%nat.
Proof. vm_compute. repeat split. Qed.

(** ** run_decompose *)

Lemma run_decompose_run (w : world) (st : state) :
  exists r t, run_decompose w st = (r, st, t) /\ quiet t /\
    (path_exists w (output_file w) = Ret true ->
     r = Ret tt /\
     spawned t = [decompose_cmd w] /\
     forall p, ev_print (msg_save_not_found p) ∉ t).
Proof.
  unfold run_decompose, try_except, bind, subprocess_run, emit, lift, ret, print, quiet.
  destruct (path_exists w (output_file w)) as [[ | ] | failure];
    cbn -[decompose_cmd TTSMODMANAGER_DIR output_file].
  2: { eexists _, _. split; [reflexivity | ]. split; [repeat constructor | discriminate]. }
  2: { eexists _, _. split; [reflexivity | ]. split; [constructor | discriminate]. }
  assert (Hnot : forall (p : path) (t : list event),
            Forall (fun e => forall q, e <> ev_print (msg_save_not_found q)) t ->
            ev_print (msg_save_not_found p) ∉ t).
  { intros p t Hall Hin. rewrite Forall_forall in Hall. exact (Hall _ Hin p eq_refl). }
  destruct (subprocess_response w (decompose_cmd w)) as [[code text] | err];
    cbn -[decompose_cmd TTSMODMANAGER_DIR output_file].
  2: { destruct err; eexists _, _; (split; [reflexivity | ]);
       (split; [repeat constructor | intros _; split; [reflexivity | split; [reflexivity | ]]]);
       intros p; apply Hnot; repeat constructor; discriminate. }
  destruct (code =? 0)%Z; cbn -[decompose_cmd TTSMODMANAGER_DIR output_file];
    eexists _, _; (split; [reflexivity | ]);
    (split; [repeat constructor | intros _; split; [reflexivity | split; [reflexivity | ]]]);
    intros p; apply Hnot; repeat constructor; discriminate.
Qed.

(** C9. When decompose is requested and the save file of the game does not
    exist, the request ends at once with its own message and no child
    process; whenever the file exists, one child process is started and
    that message is not among those printed, whatever becomes of the
    process. *)
Theorem run_decompose_missing_save (w : world) (st : state) :
  path_exists w (output_file w) = Ret false ->
  run_decompose w st = (Ret tt, st, [ev_print (msg_save_not_found (output_file w))]) /\
  spawned [ev_print (msg_save_not_found (output_file w))] = [] /\
  (forall (w' : world) (st' : state),
     path_exists w' (output_file w') = Ret true ->
     exists t, run_decompose w' st' = (Ret tt, st', t) /\
       spawned t = [decompose_cmd w'] /\
       forall p, ev_print (msg_save_not_found p) ∉ t).
Proof.
  intros Hmissing. split; [ | split; [reflexivity | ]].
  - unfold run_decompose, bind, lift. rewrite Hmissing. reflexivity.
  - intros w' st' Hexists.
    destruct (run_decompose_run w' st') as (r & t & Hrun & _ & Hspawn).
    destruct (Hspawn Hexists) as (-> & Hcmd & Hnot).
    exists t. split; [exact Hrun | split; assumption].
Qed.

Lemma run_decompose_missing_save_witness :
  run_decompose (Examples.machine (Ret Examples.manifest_v1)) initial_state =
  (Ret tt, initial_state,
   [ev_print (msg_save_not_found
      ["home"; "dev"; ".local"; "share"; "Tabletop Simulator"; "Saves";
       "Arc Spirits.json"])]).
Proof.
  exact (proj1 (run_decompose_missing_save
                  (Examples.machine (Ret Examples.manifest_v1)) initial_state eq_refl)).
Defined.

(** ** should_trigger_build *)

Lemma should_trigger_build_relative (project_dir p : path) :
  should_trigger_build project_dir p = Ret true ->
  exists rel_path, Path.relative_to p project_dir = Ret rel_path.
Proof.
  unfold should_trigger_build.
  destruct (negb (bool_decide (PyStr.lower (Path.suffix p) ∈ WATCH_EXTENSIONS)));
    [discriminate | ].
  destruct (Path.relative_to p project_dir) as [rel_path | err]; [eauto | discriminate].
Qed.

(** C8. [should_trigger_build] is a function of the path and the watched
    scope alone. It rejects a path whose extension, in lower case, is not
    watched, wherever the path lies. For a path below the project
    directory it rejects when a part of the relative path starts with a
    dot, when the name ends with a tilde or starts with [.#], and when
    neither the first part nor the whole relative path is a watched
    pattern; it accepts in every other case. *)
Theorem should_trigger_build_rules (project_dir p : path) :
  (PyStr.lower (Path.suffix p) ∉ WATCH_EXTENSIONS ->
   should_trigger_build project_dir p = Ret false) /\
  (forall rel_path : path,
     Path.relative_to p project_dir = Ret rel_path ->
     let first_part := match rel_path with part :: _ => part | [] => "" end in
     ((exists part, part ∈ rel_path /\ PyStr.startswith part "." = true) ->
      should_trigger_build project_dir p = Ret false) /\
     (PyStr.endswith (Path.name p) "~" = true \/
      PyStr.startswith (Path.name p) ".#" = true ->
      should_trigger_build project_dir p = Ret false) /\
     (first_part ∉ WATCH_PATTERNS -> Path.str_relative rel_path ∉ WATCH_PATTERNS ->
      should_trigger_build project_dir p = Ret false) /\
     (PyStr.lower (Path.suffix p) ∈ WATCH_EXTENSIONS ->
      first_part ∈ WATCH_PATTERNS \/ Path.str_relative rel_path ∈ WATCH_PATTERNS ->
      (forall part, part ∈ rel_path -> PyStr.startswith part "." = false) ->
      PyStr.endswith (Path.name p) "~" = false ->
      PyStr.startswith (Path.name p) ".#" = false ->
      should_trigger_build project_dir p = Ret true)).
Proof.
  unfold should_trigger_build. split.
  - intros Hext. rewrite bool_decide_eq_false_2 by exact Hext. reflexivity.
  - intros rel_path Hrel. rewrite Hrel.
    set (first_part := match rel_path with part :: _ => part | [] => "" end).
    assert (Hhidden : existsb (fun part => PyStr.startswith part ".") rel_path = true <->
                      exists part, part ∈ rel_path /\ PyStr.startswith part "." = true).
    { rewrite existsb_exists. split; intros (part & Hin & Hdot); exists part;
        (split; [apply list_elem_of_In; exact Hin | exact Hdot]). }
    repeat split.
    + intros Hdot. apply Hhidden in Hdot. rewrite Hdot.
      destruct (negb _); [reflexivity | ]. destruct (_ && _); reflexivity.
    + intros Hmark.
      assert (Hor : PyStr.endswith (Path.name p) "~" ||
                    PyStr.startswith (Path.name p) ".#" = true).
      { apply orb_true_iff. exact Hmark. }
      rewrite Hor.
      destruct (negb _); [reflexivity | ]. destruct (_ && _); [reflexivity | ].
      destruct (existsb _ _); reflexivity.
    + intros Hfirst Hwhole.
      rewrite (bool_decide_eq_false_2 _ Hfirst), (bool_decide_eq_false_2 _ Hwhole).
      destruct (negb _); reflexivity.
    + intros Hext Hplace Hnodot Htilde Hlock.
      rewrite (bool_decide_eq_true_2 _ Hext). cbn [negb].
      assert (Hloc : negb (bool_decide (first_part ∈ WATCH_PATTERNS)) &&
                     negb (bool_decide (Path.str_relative rel_path ∈ WATCH_PATTERNS))
                     = false).
      { destruct Hplace as [H | H]; rewrite (bool_decide_eq_true_2 _ H); cbn;
          [reflexivity | apply andb_false_r]. }
      rewrite Hloc.
      assert (Hex : existsb (fun part => PyStr.startswith part ".") rel_path = false).
      { apply not_true_is_false. intros Hex.
        apply Hhidden in Hex as (part & Hin & Hdot).
        rewrite (Hnodot part Hin) in Hdot. discriminate. }
      rewrite Hex, Htilde, Hlock. reflexivity.
Qed.

Lemma should_trigger_build_rules_witness :
  should_trigger_build ["home"; "dev"; "arc-spirits-tts"]
    ["home"; "dev"; "arc-spirits-tts"; "src"; "Global.TTSLUA"] = Ret true.
Proof.
  refine (proj2 (proj2 (proj2 (proj2 (should_trigger_build_rules
            ["home"; "dev"; "arc-spirits-tts"]
            ["home"; "dev"; "arc-spirits-tts"; "src"; "Global.TTSLUA"])
          ["src"; "Global.TTSLUA"] eq_refl))) _ _ _ eq_refl eq_refl).
  - refine (bool_decide_eq_true_1 _ _). vm_compute. reflexivity.
  - left. refine (bool_decide_eq_true_1 _ _). vm_compute. reflexivity.
  - intros part Hpart.
    repeat (apply elem_of_cons in Hpart as [-> | Hpart]; [reflexivity | ]).
    inversion Hpart.
Defined.

(** ** The debounce of on_any_event *)

Lemma on_any_event_accepted (w : world) (e : FileSystemEvent) (st : state) :
  is_directory e = false ->
  is_file_modified_or_created e = true ->
  should_trigger_build (PROJECT_DIR w) (src_path e) = Ret true ->
  on_any_event w e st =
  if PrimFloat.ltb (PrimFloat.sub (time_time w) (last_build_time (event_handler st)))
       DEBOUNCE_SECONDS
  then (Ret tt, st, [])
  else
    match Path.relative_to (src_path e) (PROJECT_DIR w) with
    | Ret rel_path =>
        let '(r, st', t) := run_build w false (set_last_build_time (time_time w) st) in
        (r, st', ev_print (msg_changed rel_path) :: t)
    | Raise err => (Raise err, set_last_build_time (time_time w) st, [])
    end.
Proof.
  intros Hfile Hkind Htrigger. unfold on_any_event.
  rewrite Hfile, Hkind. cbn [negb].
  unfold bind at 1. unfold lift at 1. rewrite Htrigger. cbn [negb].
  unfold bind at 1. unfold get_state at 1.
  destruct (PrimFloat.ltb _ DEBOUNCE_SECONDS); [reflexivity | ].
  unfold bind at 1. unfold put_state at 1.
  unfold bind at 1. unfold lift at 1.
  destruct (Path.relative_to (src_path e) (PROJECT_DIR w)) as [rel_path | err];
    [ | reflexivity].
  unfold bind at 1. unfold print at 1. unfold emit at 1.
  destruct (run_build w false (set_last_build_time (time_time w) st)) as [[r st'] t].
  reflexivity.
Qed.

(** An accepted event either is dropped or starts the build. *)
Lemma on_any_event_debounced (w : world) (e : FileSystemEvent) (st : state) :
  is_directory e = false ->
  is_file_modified_or_created e = true ->
  should_trigger_build (PROJECT_DIR w) (src_path e) = Ret true ->
  (PrimFloat.ltb (PrimFloat.sub (time_time w) (last_build_time (event_handler st)))
     DEBOUNCE_SECONDS = true ->
   on_any_event w e st = (Ret tt, st, [])) /\
  (PrimFloat.ltb (PrimFloat.sub (time_time w) (last_build_time (event_handler st)))
     DEBOUNCE_SECONDS = false ->
   exists t,
     on_any_event w e st = (Ret tt, set_last_build_time (time_time w) st, t) /\
     starts_build w t = true).
Proof.
  intros Hfile Hkind Htrigger.
  rewrite (on_any_event_accepted w e st Hfile Hkind Htrigger).
  split; intros Hwindow; rewrite Hwindow; [reflexivity | ].
  destruct (should_trigger_build_relative _ _ Htrigger) as [rel_path Hrel].
  rewrite Hrel.
  destruct (run_build_ungated w (set_last_build_time (time_time w) st))
    as (t & Hrun & _).
  rewrite Hrun. eexists. split; [reflexivity | ].
  unfold starts_build. apply bool_decide_eq_true_2.
  cbn -[build_cmd]. apply list_elem_of_here.
Qed.

Lemma deliver_step (w : world) (e : FileSystemEvent) (st : state) (now : float)
    (rest : list float) :
  is_directory e = false ->
  is_file_modified_or_created e = true ->
  should_trigger_build (PROJECT_DIR w) (src_path e) = Ret true ->
  deliver w e (now :: rest) st =
  if PrimFloat.ltb (PrimFloat.sub now (last_build_time (event_handler st)))
       DEBOUNCE_SECONDS
  then false :: deliver w e rest st
  else true :: deliver w e rest (set_last_build_time now st).
Proof.
  intros Hfile Hkind Htrigger. cbn [deliver].
  destruct (on_any_event_debounced (at_time w now) e st Hfile Hkind Htrigger)
    as [Hdrop Hfire].
  cbn [time_time at_time] in Hdrop, Hfire.
  destruct (PrimFloat.ltb _ DEBOUNCE_SECONDS).
  - rewrite (Hdrop eq_refl). reflexivity.
  - destruct (Hfire eq_refl) as (t & Hrun & Hstarts). rewrite Hrun.
    change (starts_build w t) with (starts_build (at_time w now) t).
    rewrite Hstarts. reflexivity.
Qed.



(** ** Which commands reach the asset network *)

(** [verify_assets] starts with the fetch of the manifest and starts no
    child process, however it ends. *)
Lemma verify_assets_trace (w : world) (st : state) :
  exists r st' t,
    verify_assets w st = (r, st', ev_fetch_manifest :: t) /\
    spawned (ev_fetch_manifest :: t) = [].
Proof.
  rewrite verify_assets_run.
  destruct (manifest_response w) as [manifest | err].
  2: { eexists _, _, _. split; reflexivity. }
  destruct (py_get manifest "exported_at") as [exported | err].
  2: { eexists _, _, _. split; reflexivity. }
  destruct (cache_hit (ASSET_CHECK_CACHE st) exported) as [cached | ].
  { eexists _, _, _. split; [reflexivity | ]. apply (cached_report_reading cached). }
  destruct (sorted (gather_asset_urls manifest)) as [ | url rest].
  { eexists _, _, _. split; reflexivity. }
  destruct (first_refused w (url :: rest))
    as [Hacc | (before & refused & after & Hsplit & Hbefore & Hrefused)].
  - rewrite (check_each_run w (url :: rest) 1 _ [] st Hacc).
    eexists _, _, _. split; [reflexivity | ].
    change (spawned (ev_fetch_manifest :: ?x)) with (spawned x).
    unfold spawned. rewrite omap_app.
    destruct (check_each_trace_quiet w (url :: rest) 1 (length (url :: rest)))
      as (_ & _ & Hloop).
    destruct (fresh_report_reading (length (url :: rest))
                ([] ++ List.filter (fun u => negb (verdict w u)) (url :: rest))%list)
      as (_ & _ & Hreport & _).
    unfold spawned in Hloop, Hreport. rewrite Hloop, Hreport. reflexivity.
  - rewrite Hsplit, check_each_raises by assumption.
    eexists _, _, _. split; [reflexivity | ].
    apply (check_each_trace_quiet w before 1 (length (before ++ refused :: after))).
Qed.

(** The handler of the observer never touches the asset network or the
    cache. *)
Lemma on_any_event_quiet (w : world) (e : FileSystemEvent) (st : state) :
  exists r st' t,
    on_any_event w e st = (r, st', t) /\ quiet t /\
    ASSET_CHECK_CACHE st' = ASSET_CHECK_CACHE st.
Proof.
  destruct (is_directory e) eqn:Hfile.
  { unfold on_any_event. rewrite Hfile.
    eexists _, _, _. split; [reflexivity | split; [constructor | reflexivity]]. }
  destruct (is_file_modified_or_created e) eqn:Hkind.
  2: { unfold on_any_event. rewrite Hfile, Hkind.
       eexists _, _, _. split; [reflexivity | split; [constructor | reflexivity]]. }
  destruct (should_trigger_build (PROJECT_DIR w) (src_path e)) as [[ | ] | err] eqn:Htrigger.
  - rewrite (on_any_event_accepted w e st Hfile Hkind Htrigger).
    destruct (PrimFloat.ltb _ DEBOUNCE_SECONDS).
    { eexists _, _, _. split; [reflexivity | split; [constructor | reflexivity]]. }
    destruct (should_trigger_build_relative _ _ Htrigger) as [rel_path Hrel].
    rewrite Hrel.
    destruct (run_build_ungated w (set_last_build_time (time_time w) st))
      as (t & Hrun & Hquiet).
    rewrite Hrun. eexists _, _, _. split; [reflexivity | ].
    split; [repeat (constructor; [reflexivity | ]); exact Hquiet | reflexivity].
  - unfold on_any_event, bind, lift. rewrite Hfile, Hkind, Htrigger.
    eexists _, _, _. split; [reflexivity | split; [constructor | reflexivity]].
  - unfold on_any_event, bind, lift. rewrite Hfile, Hkind, Htrigger.
    eexists _, _, _. split; [reflexivity | split; [constructor | reflexivity]].
Qed.

(** The command of the key B: an ungated build. *)
Lemma handle_key_build (w : world) (key : string) (st : state) :
  PyStr.lower key = "b" ->
  handle_key w (Some key) st =
  let '(r, st', t) := run_build w false st in
  (match r with Ret _ => Ret false | Raise err => Raise err end, st',
   ev_print msg_manual_build :: t).
Proof.
  intros Hkey. unfold handle_key.
  destruct key as [ | c key]; [discriminate | ].
  rewrite Hkey. cbn [String.eqb Ascii.eqb Bool.eqb].
  unfold bind at 1. unfold print at 1. unfold emit at 1.
  unfold bind at 1.
  destruct (run_build w false st) as [[[[] | err] st'] t]; cbn; [ | reflexivity].
  rewrite app_nil_r. reflexivity.
Qed.

(** The command of the key A: the verification alone. *)
Lemma handle_key_check (w : world) (key : string) (st : state) :
  PyStr.lower key = "a" ->
  handle_key w (Some key) st =
  let '(r, st', t) := verify_assets w st in
  (match r with Ret _ => Ret false | Raise err => Raise err end, st',
   ev_print msg_manual_asset_check :: t).
Proof.
  intros Hkey. unfold handle_key.
  destruct key as [ | c key]; [discriminate | ].
  rewrite Hkey. cbn [String.eqb Ascii.eqb Bool.eqb].
  unfold bind at 1. unfold print at 1. unfold emit at 1.
  unfold bind at 1.
  destruct (verify_assets w st) as [[[ok | err] st'] t]; cbn; [ | reflexivity].
  rewrite app_nil_r. reflexivity.
Qed.

(** Every other key leaves the asset network alone. *)
Lemma handle_key_other (w : world) (key : option string) (st : state) :
  option_map PyStr.lower key <> Some "a" ->
  exists r st' t, handle_key w key st = (r, st', t) /\ quiet t.
Proof.
  intros Hkey.
  destruct key as [key | ].
  2: { eexists _, _, _. split; [reflexivity | constructor]. }
  destruct key as [ | c key].
  { eexists _, _, _. split; [reflexivity | constructor]. }
  destruct (String.eqb_spec (PyStr.lower (String c key)) "b") as [Hb | Hb].
  { rewrite (handle_key_build w _ st Hb).
    destruct (run_build_ungated w st) as (t & Hrun & Hquiet). rewrite Hrun.
    eexists _, _, _. split; [reflexivity | ].
    repeat (constructor; [reflexivity | ]). exact Hquiet. }
  destruct (String.eqb_spec (PyStr.lower (String c key)) "a") as [Ha | Ha].
  { exfalso. apply Hkey. cbn [option_map]. rewrite Ha. reflexivity. }
  unfold handle_key.
  apply String.eqb_neq in Hb, Ha. rewrite Hb, Ha.
  destruct (String.eqb (PyStr.lower (String c key)) "d").
  { destruct (run_decompose_run w st) as (r & t & Hrun & Hquiet & _).
    unfold bind at 1. unfold print at 1. unfold emit at 1.
    unfold bind at 1. rewrite Hrun.
    destruct r as [[] | failure].
    - eexists _, _, _. split; [reflexivity | ].
      constructor; [reflexivity | ]. cbn. rewrite app_nil_r. exact Hquiet.
    - eexists _, _, _. split; [reflexivity | ].
      constructor; [reflexivity | exact Hquiet]. }
  destruct (String.eqb (PyStr.lower (String c key)) "q").
  { eexists _, _, _. split; [reflexivity | repeat constructor]. }
  eexists _, _, _. split; [reflexivity | constructor].
Qed.

(** C10. No build of this program is gated by the verification of the
    assets. The handler of the observer, for every event, makes no request
    to the manifest endpoint or to an asset host and leaves the cache as it
    is; one turn of the main loop makes such a request only for the key A,
    and then starts no child process; the key B runs [run_build] with
    [check_assets] false, which starts the build tool whatever the cache
    holds; and the key A does run the verification. *)
Theorem builds_are_never_gated (w : world) :
  (forall (e : FileSystemEvent) (st : state),
     exists r st' t,
       on_any_event w e st = (r, st', t) /\ quiet t /\
       ASSET_CHECK_CACHE st' = ASSET_CHECK_CACHE st) /\
  (forall (key : option string) (st : state),
     exists r st' t,
       handle_key w key st = (r, st', t) /\
       (quiet t \/ (option_map PyStr.lower key = Some "a" /\ spawned t = []))) /\
  (forall (key : string) (st : state),
     PyStr.lower key = "b" ->
     exists t,
       run_build w false st = (Ret tt, st, t) /\
       handle_key w (Some key) st = (Ret false, st, ev_print msg_manual_build :: t) /\
       quiet t /\ starts_build w t = true) /\
  (forall (key : string) (st : state),
     PyStr.lower key = "a" ->
     exists r st' t,
       handle_key w (Some key) st =
         (r, st', ev_print msg_manual_asset_check :: ev_fetch_manifest :: t) /\
       spawned t = []).
Proof.
  split; [intros e st; apply on_any_event_quiet | ].
  split; [ | split].
  - intros key st.
    destruct (decide (option_map PyStr.lower key = Some "a")) as [Ha | Hother].
    + destruct key as [key | ]; [ | discriminate].
      cbn [option_map] in Ha. injection Ha as Ha.
      rewrite (handle_key_check w key st Ha).
      destruct (verify_assets_trace w st) as (r & st' & t & Hrun & Hspawn).
      rewrite Hrun. eexists _, _, _. split; [reflexivity | ].
      right. split; [cbn [option_map]; rewrite Ha; reflexivity | exact Hspawn].
    + destruct (handle_key_other w key st Hother) as (r & st' & t & Hrun & Hquiet).
      exists r, st', t. split; [exact Hrun | left; exact Hquiet].
  - intros key st Hkey.
    rewrite (handle_key_build w key st Hkey).
    destruct (run_build_ungated w st) as (t & Hrun & Hquiet). rewrite Hrun.
    eexists. split; [reflexivity | ]. split; [reflexivity | ].
    split; [repeat (constructor; [reflexivity | ]); exact Hquiet | ].
    unfold starts_build. apply bool_decide_eq_true_2.
    cbn -[build_cmd]. apply list_elem_of_here.
  - intros key st Hkey.
    rewrite (handle_key_check w key st Hkey).
    destruct (verify_assets_trace w st) as (r & st' & t & Hrun & Hspawn).
    rewrite Hrun. eexists _, _, _. split; [reflexivity | exact Hspawn].
Qed.

(** * Further properties of the code *)

(** ** gather_asset_urls: how the walk composes *)

Lemma occurs_JList (u : string) (items : list json) :
  occurs u (JList items) <-> exists inner, inner ∈ items /\ occurs u inner.
Proof.
  split.
  - intros H. inversion H as [ | ? inner Hin Hocc | ]; subst. eauto.
  - intros (inner & Hin & Hocc). eapply occurs_in_list; eassumption.
Qed.

Lemma occurs_JDict (u : string) (items : list (string * json)) :
  occurs u (JDict items) <->
  exists key inner, (key, inner) ∈ items /\ key <> "schema_docs" /\ occurs u inner.
Proof.
  split.
  - intros H. inversion H as [ | | ? key inner Hin Hkey Hocc]; subst. eauto.
  - intros (key & inner & Hin & Hkey & Hocc). eapply occurs_in_dict; eassumption.
Qed.

Lemma elem_of_gather (data : json) (u : string) :
  u ∈ gather_asset_urls data <-> is_asset_url u = true /\ occurs u data.
Proof.
  unfold gather_asset_urls. rewrite elem_of_walk. split.
  - intros [H | H]; [ | exact H]. apply elem_of_empty in H. contradiction.
  - intros H. right. exact H.
Qed.

(** X1. The set gathered from a sequence is the union of the sets gathered
    from its items; the set gathered from a mapping is the union of the
    sets gathered from its values, those under the key [schema_docs] left
    out; a string gives itself or nothing; [None], booleans and numbers
    give nothing. *)
Theorem gather_asset_urls_union :
  (forall items : list json,
     gather_asset_urls (JList items) = ⋃ (gather_asset_urls <$> items)) /\
  (forall items : list (string * json),
     gather_asset_urls (JDict items) =
     ⋃ ((fun kv => if String.eqb (fst kv) "schema_docs" then ∅
                   else gather_asset_urls (snd kv)) <$> items)) /\
  (forall s, gather_asset_urls (JStr s) = if is_asset_url s then {[ s ]} else ∅) /\
  gather_asset_urls JNull = ∅ /\
  (forall b, gather_asset_urls (JBool b) = ∅) /\
  (forall n, gather_asset_urls (JInt n) = ∅) /\
  (forall x, gather_asset_urls (JFloat x) = ∅).
Proof.
  split; [ | split; [ | split; [ | repeat split]]].
  - intros items. apply set_eq. intros u.
    rewrite elem_of_gather, occurs_JList, elem_of_union_list. split.
    + intros (Hu & inner & Hin & Hocc). exists (gather_asset_urls inner).
      split; [apply list_elem_of_fmap; eauto | apply elem_of_gather; auto].
    + intros (X & HX & Hu). apply list_elem_of_fmap in HX as (inner & -> & Hin).
      apply elem_of_gather in Hu as [Hu Hocc]. eauto.
  - intros items. apply set_eq. intros u.
    rewrite elem_of_gather, occurs_JDict, elem_of_union_list. split.
    + intros (Hu & key & inner & Hin & Hkey & Hocc).
      exists (gather_asset_urls inner). split; [ | apply elem_of_gather; auto].
      apply list_elem_of_fmap. exists (key, inner). split; [ | exact Hin].
      cbn. apply String.eqb_neq in Hkey. rewrite Hkey. reflexivity.
    + intros (X & HX & Hu). apply list_elem_of_fmap in HX as ([key inner] & -> & Hin).
      cbn in Hu. destruct (String.eqb_spec key "schema_docs") as [-> | Hkey].
      * apply elem_of_empty in Hu. contradiction.
      * apply elem_of_gather in Hu as [Hu Hocc]. eauto 6.
  - intros s. unfold gather_asset_urls. cbn.
    destruct (is_asset_url s); [apply union_empty_r_L | reflexivity].
Qed.

(** X2. The set gathered does not depend on the order of the items of a
    sequence or of a mapping, nor on an item being repeated: two sequences
    (or two mappings) with the same items give the same set. *)
Theorem gather_asset_urls_order_irrelevant :
  (forall items items' : list json,
     (forall inner, inner ∈ items <-> inner ∈ items') ->
     gather_asset_urls (JList items) = gather_asset_urls (JList items')) /\
  (forall items items' : list (string * json),
     (forall kv, kv ∈ items <-> kv ∈ items') ->
     gather_asset_urls (JDict items) = gather_asset_urls (JDict items')).
Proof.
  split; intros items items' Hsame; apply set_eq; intros u; rewrite !elem_of_gather.
  - rewrite !occurs_JList. split; intros (Hu & inner & Hin & Hocc);
      (split; [exact Hu | exists inner; split; [apply Hsame; exact Hin | exact Hocc]]).
  - rewrite !occurs_JDict. split; intros (Hu & key & inner & Hin & Hkey & Hocc);
      (split; [exact Hu | exists key, inner; split; [apply Hsame; exact Hin | auto]]).
Qed.

Lemma gather_asset_urls_order_irrelevant_witness :
  gather_asset_urls (JList [JStr "https://x.supabase.co/a.png";
                            JStr "https://x.supabase.co/b.png"]) =
  gather_asset_urls (JList [JStr "https://x.supabase.co/b.png";
                            JStr "https://x.supabase.co/a.png";
                            JStr "https://x.supabase.co/b.png"]).
Proof.
  apply (proj1 gather_asset_urls_order_irrelevant).
  intros inner. rewrite !elem_of_cons, !elem_of_nil. tauto.
Defined.

(** ** The order and the number of the probes *)

Lemma ascii_compare_lt_trans (x y z : ascii) :
  Ascii.compare x y = Lt -> Ascii.compare y z = Lt -> Ascii.compare x z = Lt.
Proof. unfold Ascii.compare. rewrite !N.compare_lt_iff. apply N.lt_trans. Qed.

Lemma str_le_trans (a b c : string) : str_le a b -> str_le b c -> str_le a c.
Proof.
  unfold str_le, String.leb. revert b c.
  induction a as [ | x a IH]; intros [ | y b] [ | z c]; cbn; try easy.
  destruct (Ascii.compare x y) eqn:Hxy; destruct (Ascii.compare y z) eqn:Hyz; try easy.
  - apply Ascii.compare_eq_iff in Hxy as ->. rewrite Hyz. apply IH.
  - apply Ascii.compare_eq_iff in Hxy as ->. rewrite Hyz. reflexivity.
  - apply Ascii.compare_eq_iff in Hyz as <-. rewrite Hxy. reflexivity.
  - rewrite (ascii_compare_lt_trans x y z Hxy Hyz). reflexivity.
Qed.

Lemma str_le_total (a b : string) : str_le a b \/ str_le b a.
Proof. apply String.leb_total. Qed.

(** [sorted] gives the elements of the set in ascending order, each once. *)
Lemma sorted_ascending (urls : gset string) :
  StronglySorted str_le (sorted urls) /\ NoDup (sorted urls) /\
  length (sorted urls) = size urls.
Proof.
  unfold sorted. split; [ | split].
  - assert (Htrans : Transitive str_le) by (intros a b c; apply str_le_trans).
    assert (Htotal : Total str_le) by (intros a b; apply str_le_total).
    apply (StronglySorted_merge_sort str_le).
  - rewrite (merge_sort_Permutation str_le (elements urls)). apply NoDup_elements.
  - rewrite (merge_sort_Permutation str_le (elements urls)). reflexivity.
Qed.

Lemma first_probes_check_each_trace (w : world) (urls : list string) (index total : nat) :
  first_probes (check_each_trace w urls index total) = urls.
Proof.
  revert index. induction urls as [ | url rest IH]; intros index; [reflexivity | ].
  cbn [check_each_trace]. unfold first_probes in *. rewrite !omap_app, IH.
  unfold probes_of.
  destruct (answers_405 w url); destruct (index mod 100 =? 0)%nat; reflexivity.
Qed.

Lemma first_probes_reports (total : nat) (bad : list string) :
  first_probes (missing_trace bad) = [] /\
  first_probes (cached_report bad) = [] /\
  first_probes (fresh_report total bad) = [].
Proof.
  assert (Hmissing : forall l, first_probes (missing_trace l) = []).
  { intros l. unfold missing_trace, first_probes. rewrite omap_app.
    assert (Hlines : forall urls : list string,
              omap (fun e => match e with ev_urlopen HEAD url => Some url | _ => None end)
                   (map (fun url => ev_print (msg_missing_url url)) urls) = []).
    { induction urls as [ | url rest IH]; [reflexivity | exact IH]. }
    rewrite Hlines. destruct (10 <? length l)%nat; reflexivity. }
  split; [apply Hmissing | ].
  split; (destruct bad as [ | b bad]; [reflexivity | exact (Hmissing (b :: bad))]).
Qed.

Lemma length_flat_map_probes_of (w : world) (urls : list string) :
  (length (flat_map (probes_of w) urls) <= 2 * length urls)%nat.
Proof.
  induction urls as [ | url rest IH]; [cbn; lia | ].
  cbn [flat_map]. rewrite length_app. unfold probes_of at 1.
  destruct (answers_405 w url); cbn [length]; lia.
Qed.

(** What any call of [verify_assets] has probed: an initial part of the
    sorted URLs of the manifest, the whole of it when the pass completed. *)
Lemma verify_assets_probed (w : world) (st : state) :
  exists r st' t probed,
    verify_assets w st = (r, st', t) /\
    probes t = flat_map (probes_of w) probed /\
    first_probes t = probed /\
    (probed = [] \/
     exists manifest exported,
       manifest_response w = Ret manifest /\
       py_get manifest "exported_at" = Ret exported /\
       cache_hit (ASSET_CHECK_CACHE st) exported = None /\
       probed `prefix_of` sorted (gather_asset_urls manifest) /\
       ((exists ok, r = Ret ok) -> probed = sorted (gather_asset_urls manifest))).
Proof.
  rewrite verify_assets_run.
  destruct (manifest_response w) as [manifest | err].
  2: { eexists _, _, _, []. split; [reflexivity | ]. repeat split. left. reflexivity. }
  destruct (py_get manifest "exported_at") as [exported | err] eqn:Hget.
  2: { eexists _, _, _, []. split; [reflexivity | ]. repeat split. left. reflexivity. }
  destruct (cache_hit (ASSET_CHECK_CACHE st) exported) as [cached | ] eqn:Hhit.
  { eexists _, _, _, []. split; [reflexivity | ].
    destruct (cached_report_reading cached) as (_ & _ & _ & Hp).
    destruct (first_probes_reports 0 cached) as (_ & Hf & _).
    split; [exact Hp | ]. split; [exact Hf | left; reflexivity]. }
  destruct (sorted (gather_asset_urls manifest)) as [ | url rest] eqn:Hsorted.
  { eexists _, _, _, []. split; [reflexivity | ]. repeat split. left. reflexivity. }
  destruct (first_refused w (url :: rest))
    as [Hacc | (before & refused & after & Hsplit & Hbefore & Hrefused)].
  - rewrite (check_each_run w (url :: rest) 1 _ [] st Hacc).
    eexists _, _, _, (url :: rest). split; [reflexivity | ].
    set (report := fresh_report _ _).
    assert (Hreport : probes report = [] /\ first_probes report = []).
    { split; [apply fresh_report_reading | apply first_probes_reports]. }
    destruct Hreport as [Hp Hf]. clearbody report.
    split; [ | split].
    + change (probes (ev_fetch_manifest :: ?x)) with (probes x).
      unfold probes in *. rewrite omap_app, Hp, app_nil_r.
      apply probes_check_each_trace.
    + change (first_probes (ev_fetch_manifest :: ?x)) with (first_probes x).
      pose proof (first_probes_check_each_trace w (url :: rest) 1 (length (url :: rest)))
        as Hloop.
      unfold first_probes in *. rewrite omap_app, Hf, app_nil_r. exact Hloop.
    + right. exists manifest, exported.
      split; [reflexivity | ]. split; [exact Hget | ]. split; [exact Hhit | ].
      rewrite Hsorted. split; [exists []; symmetry; apply app_nil_r | reflexivity].
  - rewrite Hsplit, check_each_raises by assumption.
    eexists _, _, _, before. split; [reflexivity | ].
    split; [apply probes_check_each_trace | ].
    split; [apply first_probes_check_each_trace | ].
    right. exists manifest, exported.
    split; [reflexivity | ]. split; [exact Hget | ]. split; [exact Hhit | ].
    rewrite Hsorted, Hsplit.
    split; [exists (refused :: after); reflexivity | ].
    intros [ok Hok]. discriminate Hok.
Qed.

(** X3. In a pass that completes (a miss of the cache on a mapping whose
    extracted URLs are all accepted by [Request]) the first probes go to
    the extracted URLs in ascending order, to each of them exactly once. *)
Theorem verify_assets_probe_order (w : world) (st : state) (manifest exported : json) :
  manifest_response w = Ret manifest ->
  py_get manifest "exported_at" = Ret exported ->
  cache_hit (ASSET_CHECK_CACHE st) exported = None ->
  Forall (fun u => request_accepted w u = true) (sorted (gather_asset_urls manifest)) ->
  exists r st' t,
    verify_assets w st = (r, st', t) /\
    first_probes t = sorted (gather_asset_urls manifest) /\
    StronglySorted str_le (first_probes t) /\
    NoDup (first_probes t) /\
    (forall u, u ∈ first_probes t <-> u ∈ gather_asset_urls manifest).
Proof.
  intros Hfetch Hget Hmiss Hacc.
  assert (Hrun : exists r st' t,
            verify_assets w st = (r, st', t) /\
            first_probes t = sorted (gather_asset_urls manifest)).
  { rewrite verify_assets_run, Hfetch, Hget, Hmiss.
    destruct (sorted (gather_asset_urls manifest)) as [ | url rest] eqn:Hsorted.
    - eexists _, _, _. split; reflexivity.
    - rewrite (check_each_run w (url :: rest) 1 _ [] st Hacc).
      eexists _, _, _. split; [reflexivity | ].
      change (first_probes (ev_fetch_manifest :: ?x)) with (first_probes x).
      pose proof (first_probes_check_each_trace w (url :: rest) 1 (length (url :: rest)))
        as Hloop.
      destruct (first_probes_reports (length (url :: rest))
                  ([] ++ List.filter (fun u => negb (verdict w u)) (url :: rest))%list)
        as (_ & _ & Hreport).
      unfold first_probes in *. rewrite omap_app, Hreport, app_nil_r. exact Hloop. }
  destruct Hrun as (r & st' & t & Hrun & Hfirst).
  exists r, st', t. split; [exact Hrun | ]. rewrite Hfirst.
  destruct (sorted_ascending (gather_asset_urls manifest)) as (Hsorted & Hnodup & _).
  repeat split; try assumption; apply elem_of_sorted.
Qed.

Lemma verify_assets_probe_order_witness :
  exists r st' t,
    verify_assets (Examples.machine (Ret Examples.manifest_v1)) initial_state
      = (r, st', t) /\
    first_probes t = sorted (gather_asset_urls Examples.manifest_v1) /\
    StronglySorted str_le (first_probes t) /\
    NoDup (first_probes t) /\
    (forall u, u ∈ first_probes t <-> u ∈ gather_asset_urls Examples.manifest_v1).
Proof.
  apply (verify_assets_probe_order (Examples.machine (Ret Examples.manifest_v1))
           initial_state Examples.manifest_v1 (JStr "v1") eq_refl eq_refl eq_refl).
  vm_compute. repeat constructor.
Defined.

(** X4. Whatever its outcome, one call of [verify_assets] makes at most two
    probes for each URL extracted from the manifest, and none when the
    fetch failed. *)
Theorem verify_assets_probe_budget (w : world) (st : state) :
  let '(_, _, t) := verify_assets w st in
  (length (probes t) <=
   2 * match manifest_response w with
       | Ret manifest => size (gather_asset_urls manifest)
       | Raise _ => 0
       end)%nat.
Proof.
  destruct (verify_assets_probed w st) as (r & st' & t & probed & Hrun & Hp & _ & Hwhich).
  rewrite Hrun, Hp.
  pose proof (length_flat_map_probes_of w probed) as Hbound.
  destruct Hwhich as [-> | (manifest & exported & Hfetch & _ & _ & [rest Hprefix] & _)].
  { cbn. lia. }
  rewrite Hfetch.
  destruct (sorted_ascending (gather_asset_urls manifest)) as (_ & _ & Hsize).
  rewrite <- Hsize, Hprefix, length_app. lia.
Qed.

(** ** What a completed pass returns and stores *)

Lemma StronglySorted_list_filter {A : Type} (R : relation A) (f : A -> bool)
    (l : list A) :
  StronglySorted R l -> StronglySorted R (List.filter f l).
Proof.
  induction 1 as [ | x l Hl IH Hx]; cbn; [constructor | ].
  destruct (f x); [ | exact IH]. constructor; [exact IH | ].
  apply Forall_forall. intros y Hy.
  apply list_elem_of_In, filter_In in Hy as [Hy _].
  rewrite Forall_forall in Hx. apply Hx, list_elem_of_In, Hy.
Qed.

Lemma NoDup_list_filter {A : Type} (f : A -> bool) (l : list A) :
  NoDup l -> NoDup (List.filter f l).
Proof.
  induction 1 as [ | x l Hx Hl IH]; cbn; [constructor | ].
  destruct (f x); [ | exact IH]. constructor; [ | exact IH].
  intros Hin. apply Hx.
  apply list_elem_of_In, filter_In in Hin as [Hin _]. apply list_elem_of_In, Hin.
Qed.



(** Where [verify_assets] writes: only the cache, only at the end of a
    completed pass. *)
Lemma verify_assets_writes (w : world) (st : state) :
  let '(r, st', _) := verify_assets w st in
  event_handler st' = event_handler st /\
  (is_Some (bad_urls (ASSET_CHECK_CACHE st)) ->
   is_Some (bad_urls (ASSET_CHECK_CACHE st'))) /\
  (forall err, r = Raise err -> st' = st) /\
  (st' = st \/
   exists manifest exported bad,
     manifest_response w = Ret manifest /\
     py_get manifest "exported_at" = Ret exported /\
     r = Ret (is_empty bad) /\
     ASSET_CHECK_CACHE st' = {| exported_at := exported; bad_urls := Some bad |}).
Proof.
  rewrite verify_assets_run.
  destruct (manifest_response w) as [manifest | err]; [ | repeat split; auto].
  destruct (py_get manifest "exported_at") as [exported | err] eqn:Hget;
    [ | repeat split; auto].
  destruct (cache_hit (ASSET_CHECK_CACHE st) exported) as [cached | ];
    [repeat split; auto | ].
  destruct (sorted (gather_asset_urls manifest)) as [ | url rest]; [repeat split; auto | ].
  destruct (first_refused w (url :: rest))
    as [Hacc | (before & refused & after & Hsplit & Hbefore & Hrefused)].
  - rewrite (check_each_run w (url :: rest) 1 _ [] st Hacc).
    split; [reflexivity | ]. split; [intros _; eexists; reflexivity | ].
    split; [discriminate | ].
    right. exists manifest, exported. eexists.
    split; [reflexivity | ]. split; [exact Hget | ]. split; reflexivity.
  - rewrite Hsplit, check_each_raises by assumption. repeat split; auto.
Qed.

(** The calls that leave the state as it is, and the one write. *)
Lemma verify_assets_unchanged (w : world) (st : state) :
  let '(r, st', _) := verify_assets w st in
  (forall err, manifest_response w = Raise err -> st' = st) /\
  (forall manifest exported,
     manifest_response w = Ret manifest ->
     py_get manifest "exported_at" = Ret exported ->
     (forall cached_bad,
        cache_hit (ASSET_CHECK_CACHE st) exported = Some cached_bad -> st' = st) /\
     (gather_asset_urls manifest = ∅ -> st' = st) /\
     (cache_hit (ASSET_CHECK_CACHE st) exported = None ->
      gather_asset_urls manifest <> ∅ ->
      forall ok, r = Ret ok ->
        exists bad,
          ok = is_empty bad /\
          st' = set_cache {| exported_at := exported; bad_urls := Some bad |} st)).
Proof.
  rewrite verify_assets_run.
  destruct (manifest_response w) as [manifest | err] eqn:Hfetch.
  2: { split; [intros; reflexivity | discriminate]. }
  destruct (py_get manifest "exported_at") as [exported | err] eqn:Hget.
  2: { split; [discriminate | ]. intros m e Hm He. injection Hm as <-. congruence. }
  destruct (cache_hit (ASSET_CHECK_CACHE st) exported) as [cached | ] eqn:Hhit.
  { split; [discriminate | ]. intros m e Hm He. injection Hm as <-.
    rewrite Hget in He. injection He as <-. rewrite Hhit.
    split; [intros; reflexivity | ]. split; [intros; reflexivity | discriminate]. }
  destruct (sorted (gather_asset_urls manifest)) as [ | url rest] eqn:Hsorted.
  { split; [discriminate | ]. intros m e Hm He. injection Hm as <-.
    rewrite Hget in He. injection He as <-. rewrite Hhit.
    split; [discriminate | ]. split; [intros; reflexivity | ].
    intros _ Hsome. apply sorted_nil in Hsorted. contradiction. }
  assert (Hsome : gather_asset_urls manifest <> ∅).
  { intros Hnone. apply sorted_nil in Hnone. congruence. }
  destruct (first_refused w (url :: rest))
    as [Hacc | (before & refused & after & Hsplit & Hbefore & Hrefused)].
  - rewrite (check_each_run w (url :: rest) 1 _ [] st Hacc).
    split; [discriminate | ]. intros m e Hm He. injection Hm as <-.
    rewrite Hget in He. injection He as <-. rewrite Hhit.
    split; [discriminate | ]. split; [intros Hnone; contradiction | ].
    intros _ _ ok Hok. injection Hok as <-. eexists. split; reflexivity.
  - rewrite Hsplit, check_each_raises by assumption.
    split; [discriminate | ]. intros m e Hm He. injection Hm as <-.
    rewrite Hget in He. injection He as <-. rewrite Hhit.
    split; [discriminate | ]. split; [intros Hnone; contradiction | ].
    intros _ _ ok Hok. discriminate Hok.
Qed.


(** X7. A manifest without the key [exported_at] has the token [None].
    Once a pass has completed on such a manifest, every later manifest
    without the key is answered from the cache: the earlier answer is
    repeated and none of the URLs of the later manifest is probed. *)
Theorem verify_assets_untagged_manifests (w1 w2 : world) (st st1 : state)
    (items1 items2 : list (string * json)) (r1 : outcome bool) (t1 : list event) :
  manifest_response w1 = Ret (JDict items1) ->
  dict_lookup items1 "exported_at" = None ->
  manifest_response w2 = Ret (JDict items2) ->
  dict_lookup items2 "exported_at" = None ->
  verify_assets w1 st = (r1, st1, t1) ->
  st1 <> st ->
  exists t2, verify_assets w2 st1 = (r1, st1, t2) /\ probes t2 = [].
Proof.
  intros Hfetch1 Hkey1 Hfetch2 Hkey2 Hrun Hchanged.
  pose proof (verify_assets_writes w1 st) as Hstate. rewrite Hrun in Hstate.
  destruct Hstate as (_ & _ & _ & [Hsame | (m & e & bad & Hm & He & Hr & Hcache)]);
    [contradiction | ].
  rewrite Hfetch1 in Hm. injection Hm as <-.
  cbn [py_get] in He. rewrite Hkey1 in He. cbn in He. injection He as <-.
  rewrite verify_assets_run, Hfetch2. cbn [py_get]. rewrite Hkey2. cbn [default].
  unfold cache_hit. rewrite Hcache. cbn [exported_at bad_urls py_eq rich_compare].
  subst r1. eexists. split; [reflexivity | ]. apply (cached_report_reading bad).
Qed.

Lemma verify_assets_untagged_manifests_witness :
  exists t2,
    verify_assets (Examples.machine (Ret Examples.manifest_untagged_later))
      (set_cache {| exported_at := JNull; bad_urls := Some [] |} initial_state)
    = (Ret true, set_cache {| exported_at := JNull; bad_urls := Some [] |} initial_state, t2)
    /\ probes t2 = [].
Proof.
  apply (verify_assets_untagged_manifests
           (Examples.machine (Ret Examples.manifest_untagged))
           (Examples.machine (Ret Examples.manifest_untagged_later))
           initial_state
           (set_cache {| exported_at := JNull; bad_urls := Some [] |} initial_state)
           [("cards", JList [JStr "https://x.supabase.co/a.png"])]
           [("cards", JList [JStr "https://x.supabase.co/gone.png"])]
           (Ret true)
           [ev_fetch_manifest; ev_urlopen HEAD "https://x.supabase.co/a.png";
            ev_print (msg_asset_check_ok 1)]
           eq_refl eq_refl eq_refl eq_refl eq_refl).
  intros H. discriminate H.
Defined.

(** X8. A manifest that decodes to something other than a mapping (a list,
    a string, a number, [null]) makes [verify_assets] raise
    [AttributeError] right after the fetch: nothing is printed, probed or
    cached, and the exception leaves the gated build and the command of the
    key A as well. *)
Theorem verify_assets_not_a_mapping (w : world) (st : state) (manifest : json) :
  manifest_response w = Ret manifest ->
  (forall items, manifest <> JDict items) ->
  verify_assets w st = (Raise AttributeError, st, [ev_fetch_manifest]) /\
  run_build w true st = (Raise AttributeError, st, [ev_fetch_manifest]) /\
  (forall key, PyStr.lower key = "a" ->
     handle_key w (Some key) st =
     (Raise AttributeError, st, [ev_print msg_manual_asset_check; ev_fetch_manifest])).
Proof.
  intros Hfetch Hshape.
  assert (Hrun : verify_assets w st = (Raise AttributeError, st, [ev_fetch_manifest])).
  { rewrite verify_assets_run, Hfetch.
    destruct manifest as [ | b | n | x | s | items | items]; try reflexivity.
    exfalso. exact (Hshape items eq_refl). }
  split; [exact Hrun | split].
  - unfold run_build, bind at 1. unfold bind at 1. rewrite Hrun. reflexivity.
  - intros key Hkey. rewrite (handle_key_check w key st Hkey), Hrun. reflexivity.
Qed.

Lemma verify_assets_not_a_mapping_witness :
  verify_assets (Examples.machine (Ret (JList []))) initial_state
  = (Raise AttributeError, initial_state, [ev_fetch_manifest]).
Proof.
  refine (proj1 (verify_assets_not_a_mapping (Examples.machine (Ret (JList [])))
                   initial_state (JList []) eq_refl _)).
  intros items H. discriminate H.
Defined.

(** X9. [check_url] never changes the state, prints nothing and starts no
    process. It raises exactly when [Request] refuses the URL, and then
    before any probe; otherwise it returns a boolean after one or two
    probes of that URL, the first of them a HEAD. *)
Theorem check_url_effects (w : world) (url : string) (st : state) :
  let '(r, st', t) := check_url w url st in
  st' = st /\ printed t = [] /\ spawned t = [] /\
  ((request_accepted w url = false /\ r = Raise ValueError /\ t = []) \/
   (request_accepted w url = true /\ (exists b, r = Ret b) /\
    (t = [ev_urlopen HEAD url] \/ t = [ev_urlopen HEAD url; ev_urlopen GET url]))).
Proof.
  destruct (request_accepted w url) eqn:Hacc.
  - rewrite (check_url_run w url st Hacc). unfold probes_of.
    destruct (answers_405 w url); cbn; repeat split; right; repeat split; eauto.
  - rewrite (check_url_rejected w url st Hacc). repeat split. left. repeat split.
Qed.

(** X10. On an unchanged world whose token equals itself, a call that
    returned a boolean is repeated by the next call: the same boolean,
    no probe, and no change of state. *)
Theorem verify_assets_twice (w : world) (st st1 : state) (manifest exported : json)
    (ok : bool) (t1 : list event) :
  manifest_response w = Ret manifest ->
  py_get manifest "exported_at" = Ret exported ->
  py_eq exported exported = true ->
  verify_assets w st = (Ret ok, st1, t1) ->
  exists t2, verify_assets w st1 = (Ret ok, st1, t2) /\ probes t2 = [].
Proof.
  intros Hfetch Hget Hrefl. rewrite !verify_assets_run, Hfetch, Hget.
  destruct (cache_hit (ASSET_CHECK_CACHE st) exported) as [cached | ] eqn:Hhit.
  { intros H. injection H as <- <- _. rewrite Hhit.
    eexists. split; [reflexivity | apply (cached_report_reading cached)]. }
  destruct (sorted (gather_asset_urls manifest)) as [ | url rest] eqn:Hsorted.
  { intros H. injection H as <- <- _. rewrite Hhit. eexists. split; reflexivity. }
  destruct (first_refused w (url :: rest))
    as [Hacc | (before & refused & after & Hsplit & Hbefore & Hrefused)].
  2: { rewrite Hsplit, check_each_raises by assumption. discriminate. }
  rewrite (check_each_run w (url :: rest) 1 _ [] st Hacc).
  intros H. injection H as <- <- _.
  unfold cache_hit. cbn [ASSET_CHECK_CACHE set_cache exported_at bad_urls].
  rewrite Hrefl. eexists. split; [reflexivity | ].
  apply (cached_report_reading _).
Qed.

Lemma verify_assets_twice_witness :
  exists t2,
    verify_assets (Examples.machine (Ret Examples.manifest_gone))
      (set_cache {| exported_at := JStr "v4";
                    bad_urls := Some ["https://x.supabase.co/gone.png"] |} initial_state)
    = (Ret false,
       set_cache {| exported_at := JStr "v4";
                    bad_urls := Some ["https://x.supabase.co/gone.png"] |} initial_state,
       t2) /\
    probes t2 = [].
Proof.
  exact (verify_assets_twice (Examples.machine (Ret Examples.manifest_gone))
           initial_state
           (set_cache {| exported_at := JStr "v4";
                         bad_urls := Some ["https://x.supabase.co/gone.png"] |}
                      initial_state)
           Examples.manifest_gone (JStr "v4") false
           [ev_fetch_manifest;
            ev_urlopen HEAD "https://x.supabase.co/a.png";
            ev_urlopen HEAD "https://x.supabase.co/gone.png";
            ev_print (msg_asset_check_failed_missing 1);
            ev_print (msg_missing_url "https://x.supabase.co/gone.png")]
           eq_refl eq_refl eq_refl eq_refl).
Defined.

(** ** The reload and the build *)

(** What the reload does to the outside, by the answers of the world. *)
Lemma trigger_tts_reload_cases (w : world) (st : state) :
  exists t,
    trigger_tts_reload w st = (Ret tt, st, t) /\
    quiet t /\
    (spawned t = [] \/ spawned t = [activate_cmd]) /\
    (hotkeys t = [] \/ hotkeys t = ["f9"]) /\
    (spawned t = [activate_cmd] <->
       gui_modules w = true /\
       exists titles,
         window_titles w = Ret titles /\
         existsb (PyStr.contains "Tabletop Simulator") titles = true) /\
    (hotkeys t = ["f9"] <->
       spawned t = [activate_cmd] /\
       exists done, subprocess_response w activate_cmd = Ret done).
Proof.
  unfold trigger_tts_reload, try_except, bind, subprocess_run, emit, lift, ret,
    raise, print, quiet.
  fold activate_cmd.
  destruct (gui_modules w) eqn:Hgui; cbn -[activate_cmd].
  2: { eexists. split; [reflexivity | ]. split; [repeat constructor | ].
       cbn. split; [left; reflexivity | ]. split; [left; reflexivity | ].
       split; split; try discriminate; intros [H _]; discriminate H. }
  destruct (window_titles w) as [titles | err] eqn:Htitles; cbn -[activate_cmd].
  2: { destruct err; eexists; (split; [reflexivity | ]);
       (split; [repeat constructor | ]); cbn;
       (split; [left; reflexivity | ]); (split; [left; reflexivity | ]);
       (split; split; try discriminate);
       try (intros [_ (titles & Ht & _)]; discriminate Ht);
       intros [H _]; discriminate H. }
  destruct (existsb (PyStr.contains "Tabletop Simulator") titles) eqn:Hfound;
    cbn -[activate_cmd].
  2: { eexists. split; [reflexivity | ]. split; [repeat constructor | ]. cbn.
       split; [left; reflexivity | ]. split; [left; reflexivity | ].
       split; split; try discriminate.
       - intros [_ (titles' & Ht & Hex)]. injection Ht as <-. congruence.
       - intros [H _]. discriminate H. }
  destruct (subprocess_response w activate_cmd) as [done | err] eqn:Hrun;
    cbn -[activate_cmd].
  2: { destruct err; eexists; (split; [reflexivity | ]);
       (split; [repeat constructor | ]); cbn -[activate_cmd];
       (split; [right; reflexivity | ]); (split; [left; reflexivity | ]);
       (split; split; try discriminate; eauto);
       intros [_ [done Hdone]]; discriminate Hdone. }
  destruct (hotkey_response w) as [[] | err]; cbn -[activate_cmd].
  2: { destruct err; eexists; (split; [reflexivity | ]);
       (split; [repeat constructor | ]); cbn -[activate_cmd];
       (split; [right; reflexivity | ]); (split; [right; reflexivity | ]);
       split; split; eauto. }
  eexists. split; [reflexivity | ]. split; [repeat constructor | ]. cbn -[activate_cmd].
  split; [right; reflexivity | ]. split; [right; reflexivity | ].
  split; split; eauto.
Qed.

(** X11. [trigger_tts_reload] never raises and never changes the state. It
    runs the activation command exactly when the GUI modules import and a
    window title contains [Tabletop Simulator], and it sends F9 exactly
    when, in addition, that command did not raise. *)
Theorem trigger_tts_reload_effects (w : world) (st : state) :
  exists t,
    trigger_tts_reload w st = (Ret tt, st, t) /\
    quiet t /\
    (spawned t = [] \/ spawned t = [activate_cmd]) /\
    (hotkeys t = [] \/ hotkeys t = ["f9"]) /\
    (spawned t = [activate_cmd] <->
       gui_modules w = true /\
       exists titles,
         window_titles w = Ret titles /\
         existsb (PyStr.contains "Tabletop Simulator") titles = true) /\
    (hotkeys t = ["f9"] <->
       spawned t = [activate_cmd] /\
       exists done, subprocess_response w activate_cmd = Ret done).
Proof. exact (trigger_tts_reload_cases w st). Qed.

(** The activation command is not the command of the build. *)
Lemma activate_cmd_not_build (w : world) : build_cmd w <> activate_cmd.
Proof. unfold build_cmd, activate_cmd. intros H. discriminate H. Qed.

(** X12. An ungated [run_build] never raises and leaves the state alone.
    It starts the build tool once and never again; a non-zero exit code
    prints the captured standard error, a timeout and any other exception
    print their own line, and in these three cases nothing else happens.
    The reload is attempted only after exit code 0, so F9 is never sent
    after a build that failed. *)
Theorem run_build_outcomes (w : world) (st : state) :
  exists t,
    run_build w false st =
      (Ret tt, st,
       ev_print msg_rule_after_newline :: ev_print (msg_building (time_strftime w)) ::
       ev_print msg_rule ::
       ev_subprocess (build_cmd w) (Some (TTSMODMANAGER_DIR w)) 60 :: t) /\
    (spawned t = [] \/ spawned t = [activate_cmd]) /\
    (forall done, subprocess_response w (build_cmd w) = Ret done ->
       returncode done <> 0%Z ->
       t = [ev_print msg_build_failed; ev_print (msg_stderr (stderr done))]) /\
    (subprocess_response w (build_cmd w) = Raise TimeoutExpired ->
       t = [ev_print msg_build_timed_out]) /\
    (forall err, subprocess_response w (build_cmd w) = Raise err ->
       err <> TimeoutExpired -> t = [ev_print (msg_build_error err)]) /\
    (forall done, subprocess_response w (build_cmd w) = Ret done ->
       returncode done = 0%Z ->
       exists t', trigger_tts_reload w st = (Ret tt, st, t') /\
                  t = ev_print (msg_build_successful (elapsed w)) :: t') /\
    (hotkeys t <> [] \/ spawned t <> [] ->
     exists done, subprocess_response w (build_cmd w) = Ret done /\
                  returncode done = 0%Z).
Proof.
  unfold run_build, try_except, bind, subprocess_run, emit, lift, ret, print.
  cbn -[build_cmd TTSMODMANAGER_DIR trigger_tts_reload activate_cmd].
  destruct (subprocess_response w (build_cmd w)) as [[code text] | err] eqn:Hrun;
    cbn -[build_cmd TTSMODMANAGER_DIR trigger_tts_reload activate_cmd].
  2: { destruct err; eexists; (split; [reflexivity | ]); cbn;
       (split; [left; reflexivity | ]);
       (split; [discriminate | ]);
       (split; [try reflexivity; discriminate | ]);
       (split; [intros err Herr Hne; injection Herr as <-; try reflexivity; congruence | ]);
       (split; [discriminate | ]);
       intros [H | H]; congruence. }
  destruct (Z.eqb_spec code 0) as [-> | Hcode];
    cbn -[build_cmd TTSMODMANAGER_DIR trigger_tts_reload activate_cmd].
  2: { eexists. split; [reflexivity | ]. cbn.
       split; [left; reflexivity | ].
       split; [intros done Hdone _; injection Hdone as <-; reflexivity | ].
       split; [discriminate | ]. split; [discriminate | ].
       split; [intros done Hdone Hzero; injection Hdone as <-; cbn in Hzero; congruence | ].
       intros [H | H]; congruence. }
  destruct (trigger_tts_reload_cases w st) as (t' & Hreload & _ & Hspawned & _).
  rewrite Hreload. eexists. split; [reflexivity | ].
  split; [exact Hspawned | ].
  split; [intros done Hdone Hnz; injection Hdone as <-; cbn in Hnz; congruence | ].
  split; [discriminate | ]. split; [discriminate | ].
  split; [intros done _ _; eauto | ].
  intros _. eexists. split; reflexivity.
Qed.

Lemma bind_ret_l {A B} (a : A) (k : A -> M B) (st : state) :
  bind (ret a) k st = k a st.
Proof. unfold bind, ret. destruct (k a st) as [[r st'] t]. reflexivity. Qed.

Lemma bind_bind_ret {A B C} (m : M A) (f : A -> B) (k : B -> M C) (st : state) :
  bind (bind m (fun a => ret (f a))) k st =
  match m st with
  | (Ret a, st', t) => let '(r, st'', t') := k (f a) st' in (r, st'', (t ++ t')%list)
  | (Raise e, st', t) => (Raise e, st', t)
  end.
Proof.
  unfold bind, ret. destruct (m st) as [[[a | e] st'] t]; [ | reflexivity].
  destruct (k (f a) st') as [[r st''] t']. rewrite app_nil_r. reflexivity.
Qed.

(** A gated build is the verification followed by the ungated build. *)
Lemma run_build_gated_run (w : world) (st : state) :
  run_build w true st =
  match verify_assets w st with
  | (Ret true, st', t) =>
      let '(r, st'', t') := run_build w false st' in (r, st'', (t ++ t')%list)
  | (Ret false, st', t) => (Ret tt, st', (t ++ [ev_print msg_build_skipped])%list)
  | (Raise err, st', t) => (Raise err, st', t)
  end.
Proof.
  unfold run_build. cbv iota. rewrite bind_bind_ret.
  destruct (verify_assets w st) as [[[[ | ] | err] st'] t]; cbn [negb].
  - rewrite bind_ret_l. reflexivity.
  - reflexivity.
  - reflexivity.
Qed.


(** ** run_decompose *)

(** The command of the decomposition is not the command of the build. *)
Lemma decompose_cmd_not_build (w : world) : build_cmd w <> decompose_cmd w.
Proof. unfold decompose_cmd, build_cmd. intros H. discriminate H. Qed.

(** X14. [run_decompose] leaves the state alone. An exception leaves it
    exactly when [exists()] raises at line 214, which stands outside the
    [try]: it is that exception, and nothing has been printed or started.
    Otherwise it returns. It starts a child process exactly when the save
    file exists, and then only the build tool in reverse; it never starts
    the build itself, never sends a key to the game and never touches the
    asset network. When the file is missing it prints that alone. When the
    file exists, after the three header lines it prints the success lines
    for exit code 0, the captured standard error for another exit code, and
    its own line for a timeout or any other exception. *)
Theorem run_decompose_outcomes (w : world) (st : state) :
  exists r t,
    run_decompose w st = (r, st, t) /\
    quiet t /\
    hotkeys t = [] /\
    starts_build w t = false /\
    (forall err, r = Raise err <-> path_exists w (output_file w) = Raise err) /\
    (forall err, path_exists w (output_file w) = Raise err -> t = []) /\
    (spawned t = [decompose_cmd w] <-> path_exists w (output_file w) = Ret true) /\
    (path_exists w (output_file w) = Ret false ->
     t = [ev_print (msg_save_not_found (output_file w))]) /\
    (path_exists w (output_file w) = Ret true ->
     t = [ev_print msg_rule_after_newline;
          ev_print (msg_decomposing (time_strftime w));
          ev_print msg_rule;
          ev_subprocess (decompose_cmd w) (Some (TTSMODMANAGER_DIR w)) 60] ++
         match subprocess_response w (decompose_cmd w) with
         | Ret done =>
             if (returncode done =? 0)%Z
             then [ev_print (msg_decompose_successful (elapsed w));
                   ev_print msg_source_files_updated]
             else [ev_print msg_decompose_failed; ev_print (msg_stderr (stderr done))]
         | Raise TimeoutExpired => [ev_print msg_decompose_timed_out]
         | Raise err => [ev_print (msg_decompose_error err)]
         end)%list.
Proof.
  assert (Hnobuild : forall t : list event,
            spawned t = [] \/ spawned t = [decompose_cmd w] -> starts_build w t = false).
  { intros t [Hs | Hs]; unfold starts_build; rewrite Hs; apply bool_decide_eq_false_2.
    - apply not_elem_of_nil.
    - intros Hin. apply list_elem_of_singleton in Hin.
      exact (decompose_cmd_not_build w Hin). }
  unfold run_decompose, try_except, bind, subprocess_run, emit, lift, ret, print, quiet.
  destruct (path_exists w (output_file w)) as [[ | ] | failure];
    cbn -[decompose_cmd TTSMODMANAGER_DIR output_file].
  2: { eexists _, _. split; [reflexivity | ]. split; [repeat constructor | ].
       split; [reflexivity | ]. split; [apply Hnobuild; left; reflexivity | ].
       cbn. split; [intros err; split; discriminate | ]. split; [discriminate | ].
       split; [split; discriminate | ]. split; [reflexivity | discriminate]. }
  2: { eexists _, _. split; [reflexivity | ]. split; [constructor | ].
       split; [reflexivity | ]. split; [apply Hnobuild; left; reflexivity | ].
       cbn. split; [intros err; split; intros H; congruence | ].
       split; [reflexivity | ].
       split; [split; discriminate | ]. split; discriminate. }
  destruct (subprocess_response w (decompose_cmd w)) as [[code text] | err];
    cbn -[decompose_cmd TTSMODMANAGER_DIR output_file].
  2: { destruct err; eexists _, _; (split; [reflexivity | ]);
       (split; [repeat constructor | ]); (split; [reflexivity | ]);
       (split; [apply Hnobuild; right; reflexivity | ]);
       cbn -[decompose_cmd TTSMODMANAGER_DIR output_file];
       (split; [intros err; split; discriminate | ]); (split; [discriminate | ]);
       (split; [split; reflexivity | ]); (split; [discriminate | reflexivity]). }
  destruct (code =? 0)%Z; cbn -[decompose_cmd TTSMODMANAGER_DIR output_file];
    eexists _, _; (split; [reflexivity | ]);
    (split; [repeat constructor | ]); (split; [reflexivity | ]);
    (split; [apply Hnobuild; right; reflexivity | ]);
    cbn -[decompose_cmd TTSMODMANAGER_DIR output_file];
    (split; [intros err; split; discriminate | ]); (split; [discriminate | ]);
    (split; [split; reflexivity | ]); (split; [discriminate | reflexivity]).
Qed.

(** ** The handler of the observer, event by event *)

Lemma relative_to_app (p base rel : path) :
  Path.relative_to p base = Ret rel <-> p = (base ++ rel)%list.
Proof.
  revert p. induction base as [ | b base IH]; intros p.
  - destruct p; cbn; split; intros H; congruence.
  - destruct p as [ | x p]; cbn.
    + split; intros H; discriminate H.
    + destruct (String.eqb_spec b x) as [-> | Hne].
      * rewrite IH. split; intros H; congruence.
      * split; intros H; [discriminate H | congruence].
Qed.

Lemma relative_to_raises (p base : path) (err : exn) :
  Path.relative_to p base = Raise err -> err = ValueError.
Proof.
  revert p. induction base as [ | b base IH]; intros p.
  - destruct p; cbn; discriminate.
  - destruct p as [ | x p]; cbn.
    + intros H. congruence.
    + destruct (String.eqb b x); [apply IH | intros H; congruence].
Qed.

(** When [should_trigger_build] raises: the extension is watched and the
    path is not below the project directory. *)
Lemma should_trigger_build_raises (project_dir p : path) (err : exn) :
  should_trigger_build project_dir p = Raise err <->
  err = ValueError /\
  PyStr.lower (Path.suffix p) ∈ WATCH_EXTENSIONS /\
  forall rel, p <> (project_dir ++ rel)%list.
Proof.
  unfold should_trigger_build.
  destruct (bool_decide_reflect (PyStr.lower (Path.suffix p) ∈ WATCH_EXTENSIONS))
    as [Hext | Hext]; cbn [negb].
  2: { split; [discriminate | intros (_ & H & _); contradiction]. }
  destruct (Path.relative_to p project_dir) as [rel | err'] eqn:Hrel.
  - split.
    + destruct (_ && _); [discriminate | ].
      destruct (existsb _ _); [discriminate | ].
      destruct (_ || _); discriminate.
    + intros (_ & _ & Hout). apply relative_to_app in Hrel. destruct (Hout rel Hrel).
  - split.
    + intros H. injection H as <-.
      split; [exact (relative_to_raises _ _ _ Hrel) | ]. split; [exact Hext | ].
      intros rel Heq. apply relative_to_app in Heq. congruence.
    + intros (-> & _ & _). rewrite (relative_to_raises _ _ _ Hrel). reflexivity.
Qed.

Lemma starts_build_nil (w : world) : starts_build w [] = false.
Proof. unfold starts_build. apply bool_decide_eq_false_2. apply not_elem_of_nil. Qed.

(** The three outcomes of one event. *)
Lemma on_any_event_cases (w : world) (e : FileSystemEvent) (st : state) :
  (on_any_event w e st = (Ret tt, st, []) /\
   (is_file_modified_or_created e = false \/
    should_trigger_build (PROJECT_DIR w) (src_path e) = Ret false \/
    (should_trigger_build (PROJECT_DIR w) (src_path e) = Ret true /\
     PrimFloat.ltb (PrimFloat.sub (time_time w) (last_build_time (event_handler st)))
       DEBOUNCE_SECONDS = true))) \/
  (is_file_modified_or_created e = true /\
   should_trigger_build (PROJECT_DIR w) (src_path e) = Ret true /\
   PrimFloat.ltb (PrimFloat.sub (time_time w) (last_build_time (event_handler st)))
     DEBOUNCE_SECONDS = false /\
   exists t,
     on_any_event w e st = (Ret tt, set_last_build_time (time_time w) st, t) /\
     starts_build w t = true) \/
  (is_file_modified_or_created e = true /\
   should_trigger_build (PROJECT_DIR w) (src_path e) = Raise ValueError /\
   on_any_event w e st = (Raise ValueError, st, [])).
Proof.
  destruct (is_directory e) eqn:Hfile.
  { left. unfold on_any_event, is_file_modified_or_created. rewrite Hfile.
    split; [reflexivity | left; reflexivity]. }
  destruct (is_file_modified_or_created e) eqn:Hkind.
  2: { left. unfold on_any_event. rewrite Hfile, Hkind.
       split; [reflexivity | left; reflexivity]. }
  destruct (should_trigger_build (PROJECT_DIR w) (src_path e)) as [[ | ] | err] eqn:Htrigger.
  - destruct (on_any_event_debounced w e st Hfile Hkind Htrigger) as [Hdrop Hfire].
    destruct (PrimFloat.ltb _ DEBOUNCE_SECONDS) eqn:Hwindow.
    + left. split; [exact (Hdrop eq_refl) | right; right; split; reflexivity].
    + right; left. split; [reflexivity | ]. split; [reflexivity | ].
      split; [reflexivity | exact (Hfire eq_refl)].
  - left. unfold on_any_event, bind, lift. rewrite Hfile, Hkind, Htrigger.
    split; [reflexivity | right; left; reflexivity].
  - right; right.
    apply should_trigger_build_raises in Htrigger as Hwhy. destruct Hwhy as (-> & _).
    unfold on_any_event, bind, lift. rewrite Hfile, Hkind, Htrigger.
    split; [reflexivity | ]. split; reflexivity.
Qed.


(** ** The observer over a sequence of events *)

Lemma last_cons {A : Type} (a d : A) (l : list A) :
  List.last (a :: l) d = List.last l a.
Proof.
  revert a d. induction l as [ | b l IH]; intros a d; [reflexivity | ].
  change (List.last (a :: b :: l) d) with (List.last (b :: l) d).
  rewrite (IH b d), (IH b a). reflexivity.
Qed.


(** ** The commands of the main loop *)

(** When an exception leaves [run_decompose]: it is the one [exists()]
    raised. *)
Lemma run_decompose_raises (w : world) (st : state) :
  exists r t,
    run_decompose w st = (r, st, t) /\
    forall err, r = Raise err -> path_exists w (output_file w) = Raise err.
Proof.
  unfold run_decompose, try_except, bind, subprocess_run, emit, lift, ret, print.
  destruct (path_exists w (output_file w)) as [[ | ] | failure];
    cbn -[decompose_cmd TTSMODMANAGER_DIR output_file].
  2: { eexists _, _. split; [reflexivity | discriminate]. }
  2: { eexists _, _. split; [reflexivity | intros err H; congruence]. }
  destruct (subprocess_response w (decompose_cmd w)) as [[code text] | err];
    cbn -[decompose_cmd TTSMODMANAGER_DIR output_file].
  2: { destruct err; eexists _, _; (split; [reflexivity | discriminate]). }
  destruct (code =? 0)%Z; cbn -[decompose_cmd TTSMODMANAGER_DIR output_file];
    eexists _, _; (split; [reflexivity | discriminate]).
Qed.

(** X17. One turn of the main loop. The loop breaks exactly when the key,
    in lower case, is [q], and then only the farewell is printed. A turn
    without a key, or with a key other than B, A, D and Q, does nothing at
    all. An exception can leave the turn only for the key A, and for the
    key D when [exists()] raises on the save file, as that exception. No
    command changes [last_build_time], so a manual build never delays the
    build of the next saved file, and only the key A can change the
    state. *)
Theorem handle_key_cases (w : world) (key : option string) (st : state) :
  let '(r, st', t) := handle_key w key st in
  (r = Ret true <-> option_map PyStr.lower key = Some "q") /\
  (option_map PyStr.lower key = Some "q" -> st' = st /\ t = [ev_print msg_quitting]) /\
  (option_map PyStr.lower key ∉ [Some "b"; Some "a"; Some "d"; Some "q"] ->
     r = Ret false /\ st' = st /\ t = []) /\
  (forall err, r = Raise err ->
     option_map PyStr.lower key = Some "a" \/
     (option_map PyStr.lower key = Some "d" /\
      path_exists w (output_file w) = Raise err)) /\
  event_handler st' = event_handler st /\
  (option_map PyStr.lower key <> Some "a" -> st' = st).
Proof.
  destruct key as [key | ].
  2: { cbn. split; [split; discriminate | ]. split; [discriminate | ].
       split; [intros _; repeat split | ]. split; [discriminate | ].
       split; [reflexivity | intros _; reflexivity]. }
  destruct key as [ | c key].
  { cbn. split; [split; discriminate | ]. split; [discriminate | ].
    split; [intros _; repeat split | ]. split; [discriminate | ].
    split; [reflexivity | intros _; reflexivity]. }
  cbn [option_map].
  destruct (String.eqb_spec (PyStr.lower (String c key)) "b") as [Hb | Hb].
  { rewrite (handle_key_build w _ st Hb).
    destruct (run_build_ungated w st) as (t & Hrun & _). rewrite Hrun, Hb.
    split; [split; discriminate | ]. split; [discriminate | ].
    split; [intros H; exfalso; apply H; apply list_elem_of_In; cbn; auto 10 | ].
    split; [discriminate | ]. split; [reflexivity | intros _; reflexivity]. }
  destruct (String.eqb_spec (PyStr.lower (String c key)) "a") as [Ha | Ha].
  { rewrite (handle_key_check w _ st Ha).
    pose proof (verify_assets_writes w st) as Hw.
    destruct (verify_assets w st) as [[r st'] t]. destruct Hw as (Hhandler & _).
    rewrite Ha.
    split; [split; [destruct r; discriminate | discriminate] | ].
    split; [discriminate | ].
    split; [intros H; exfalso; apply H; apply list_elem_of_In; cbn; auto 10 | ].
    split; [intros err _; left; reflexivity | ].
    split; [exact Hhandler | intros H; exfalso; apply H; reflexivity]. }
  unfold handle_key.
  apply String.eqb_neq in Hb as Hb', Ha as Ha'. rewrite Hb', Ha'.
  destruct (String.eqb_spec (PyStr.lower (String c key)) "d") as [Hd | Hd].
  { destruct (run_decompose_raises w st) as (r & t & Hrun & Hraise).
    unfold bind at 1. unfold print at 1. unfold emit at 1.
    unfold bind at 1. rewrite Hrun.
    destruct r as [[] | failure]; cbn -[PyStr.lower]; rewrite Hd.
    - split; [split; discriminate | ]. split; [discriminate | ].
      split; [intros H; exfalso; apply H; apply list_elem_of_In; cbn; auto 10 | ].
      split; [discriminate | ]. split; [reflexivity | intros _; reflexivity].
    - split; [split; discriminate | ]. split; [discriminate | ].
      split; [intros H; exfalso; apply H; apply list_elem_of_In; cbn; auto 10 | ].
      split; [intros err H; injection H as <-; right;
              split; [reflexivity | exact (Hraise failure eq_refl)] | ].
      split; [reflexivity | intros _; reflexivity]. }
  destruct (String.eqb_spec (PyStr.lower (String c key)) "q") as [Hq | Hq].
  { cbn -[PyStr.lower]. rewrite Hq.
    split; [split; reflexivity | ]. split; [intros _; split; reflexivity | ].
    split; [intros H; exfalso; apply H; apply list_elem_of_In; cbn; auto 10 | ].
    split; [discriminate | ]. split; [reflexivity | intros _; reflexivity]. }
  cbn -[PyStr.lower].
  split; [split; [discriminate | congruence] | ]. split; [congruence | ].
  split; [intros _; repeat split | ]. split; [discriminate | ].
  split; [reflexivity | intros _; reflexivity].
Qed.

(** ** Which paths start a build *)

Lemma contains_sep (x r : string) : PyStr.contains "/" (x ++ "/" ++ r) = true.
Proof.
  induction x as [ | a x IH].
  - apply prefix_contains. cbn. destruct r; reflexivity.
  - apply (contains_cons "/" (x ++ "/" ++ r) a). exact IH.
Qed.

(** No watched pattern contains a separator, so the whole relative path is
    a watched pattern only when it is its own first part. *)
Lemma whole_path_is_first_part (rel : path) :
  Path.str_relative rel ∈ WATCH_PATTERNS ->
  match rel with part :: _ => part | [] => "" end ∈ WATCH_PATTERNS.
Proof.
  destruct rel as [ | x [ | y rest]]; intros H.
  - exfalso. unfold WATCH_PATTERNS in H. cbn in H.
    repeat (apply elem_of_cons in H as [H | H]; [discriminate H | ]). inversion H.
  - exact H.
  - exfalso.
    pose proof (contains_sep x (String.concat "/" (y :: rest))) as Hsep.
    unfold Path.str_relative, PyStr.join in H.
    change (String.concat "/" (x :: y :: rest))
      with (x ++ "/" ++ String.concat "/" (y :: rest)) in H.
    unfold WATCH_PATTERNS in H.
    repeat (apply elem_of_cons in H as [H | H];
            [rewrite H in Hsep; vm_compute in Hsep; discriminate Hsep | ]).
    inversion H.
Qed.

Lemma last_app_nonempty {A : Type} (base rel : list A) (d : A) :
  rel <> [] -> List.last (base ++ rel) d = List.last rel d.
Proof.
  intros Hrel. destruct rel as [ | r rel]; [contradiction | ]. clear Hrel.
  revert d. induction base as [ | b base IH]; intros d; [reflexivity | ].
  cbn [app]. rewrite last_cons, IH, !last_cons. reflexivity.
Qed.

Lemma last_elem_of {A : Type} (l : list A) (d : A) :
  l <> [] -> List.last l d ∈ l.
Proof.
  intros Hl. destruct l as [ | a l]; [contradiction | ]. clear Hl.
  revert a. induction l as [ | b l IH]; intros a.
  - apply list_elem_of_here.
  - rewrite last_cons. apply elem_of_cons. right.
    rewrite last_cons, <- (last_cons b d l). apply IH.
Qed.

Lemma startswith_lock_hidden (s : string) :
  PyStr.startswith s ".#" = true -> PyStr.startswith s "." = true.
Proof. unfold PyStr.startswith. exact (prefix_append_l "." "#" s). Qed.

Lemma endswith_drop_char (c : ascii) (s : string) (k : nat) :
  PyStr.endswith s (String c "") = true ->
  PyStr.drop k s = "" \/ PyStr.endswith (PyStr.drop k s) (String c "") = true.
Proof.
  revert k. induction s as [ | a s IH]; intros k H; [discriminate H | ].
  destruct k as [ | k]; [right; exact H | ].
  cbn [PyStr.drop]. cbn [PyStr.endswith] in H.
  apply orb_true_iff in H as [H | H]; [ | exact (IH k H)].
  apply String.eqb_eq in H. injection H as _ ->. left. destruct k; reflexivity.
Qed.

Lemma endswith_tilde_lower (s : string) :
  PyStr.endswith s "~" = true -> PyStr.endswith (PyStr.lower s) "~" = true.
Proof.
  induction s as [ | a s IH]; intros H; [discriminate H | ].
  cbn [PyStr.endswith PyStr.lower] in *.
  apply orb_true_iff in H as [H | H].
  - apply String.eqb_eq in H. injection H as -> ->. reflexivity.
  - rewrite (IH H). apply orb_true_r.
Qed.

(** A name with a watched extension does not end with a tilde. *)
Lemma watched_extension_no_tilde (p : path) :
  PyStr.lower (Path.suffix p) ∈ WATCH_EXTENSIONS ->
  PyStr.endswith (Path.name p) "~" = false.
Proof.
  intros Hext. destruct (PyStr.endswith (Path.name p) "~") eqn:Htilde; [ | reflexivity].
  exfalso.
  assert (Hsuffix : Path.suffix p = "" \/ PyStr.endswith (Path.suffix p) "~" = true).
  { unfold Path.suffix. cbv zeta.
    destruct (_ && _); [apply endswith_drop_char; exact Htilde | left; reflexivity]. }
  assert (Hcases : PyStr.lower (Path.suffix p) = ".ttslua" \/
                   PyStr.lower (Path.suffix p) = ".lua" \/
                   PyStr.lower (Path.suffix p) = ".json" \/
                   PyStr.lower (Path.suffix p) = ".xml").
  { unfold WATCH_EXTENSIONS in Hext.
    rewrite !elem_of_union, !elem_of_singleton in Hext. tauto. }
  destruct Hsuffix as [Hnone | Hends].
  - rewrite Hnone in Hcases. cbn in Hcases.
    destruct Hcases as [H | [H | [H | H]]]; discriminate H.
  - apply endswith_tilde_lower in Hends.
    destruct Hcases as [H | [H | [H | H]]]; rewrite H in Hends;
      vm_compute in Hends; discriminate Hends.
Qed.

(** X18. The paths [should_trigger_build] accepts, in closed form: the
    extension, in lower case, is watched; the path lies below the project
    directory and its first part there is a watched pattern; and no part
    below the project directory starts with a dot. The three remaining
    tests of the code never change the answer: a relative path that is a
    watched pattern as a whole is its own first part, a name with a watched
    extension does not end with a tilde, and a name that starts with [.#]
    starts with a dot. *)
Theorem should_trigger_build_accepts (project_dir p : path) :
  should_trigger_build project_dir p = Ret true <->
  PyStr.lower (Path.suffix p) ∈ WATCH_EXTENSIONS /\
  exists first rest,
    p = (project_dir ++ first :: rest)%list /\
    first ∈ WATCH_PATTERNS /\
    forall part, part ∈ first :: rest -> PyStr.startswith part "." = false.
Proof.
  split.
  - unfold should_trigger_build.
    destruct (bool_decide_reflect (PyStr.lower (Path.suffix p) ∈ WATCH_EXTENSIONS))
      as [Hext | Hext]; cbn [negb]; [ | discriminate].
    destruct (Path.relative_to p project_dir) as [rel | err] eqn:Hrel; [ | discriminate].
    apply relative_to_app in Hrel.
    destruct (_ && _) eqn:Hplace; [discriminate | ].
    destruct (existsb _ rel) eqn:Hhidden; [discriminate | ].
    intros _.
    assert (Hfirst : match rel with part :: _ => part | [] => "" end ∈ WATCH_PATTERNS).
    { apply andb_false_iff in Hplace as [H | H];
        apply negb_false_iff, bool_decide_eq_true_1 in H;
        [exact H | exact (whole_path_is_first_part rel H)]. }
    destruct rel as [ | first rest].
    { exfalso. unfold WATCH_PATTERNS in Hfirst.
      repeat (apply elem_of_cons in Hfirst as [Hfirst | Hfirst]; [discriminate Hfirst | ]).
      inversion Hfirst. }
    split; [exact Hext | ]. exists first, rest.
    split; [exact Hrel | ]. split; [exact Hfirst | ].
    intros part Hin. destruct (PyStr.startswith part ".") eqn:Hdot; [ | reflexivity].
    assert (Hex : existsb (fun part => PyStr.startswith part ".") (first :: rest) = true).
    { apply existsb_exists. exists part.
      split; [apply list_elem_of_In; exact Hin | exact Hdot]. }
    congruence.
  - intros (Hext & first & rest & -> & Hfirst & Hnodot).
    unfold should_trigger_build.
    rewrite (bool_decide_eq_true_2 _ Hext). cbn [negb].
    rewrite (proj2 (relative_to_app (project_dir ++ first :: rest)%list project_dir
                      (first :: rest)) eq_refl).
    cbv beta iota zeta.
    rewrite (bool_decide_eq_true_2 _ Hfirst). cbn [negb andb].
    assert (Hex : existsb (fun part => PyStr.startswith part ".") (first :: rest) = false).
    { apply not_true_is_false. intros Hex.
      apply existsb_exists in Hex as (part & Hin & Hdot).
      apply list_elem_of_In in Hin. rewrite (Hnodot part Hin) in Hdot. discriminate. }
    rewrite Hex, (watched_extension_no_tilde _ Hext). cbn [orb].
    assert (Hname : Path.name (project_dir ++ first :: rest)%list ∈ first :: rest).
    { unfold Path.name. rewrite last_app_nonempty by discriminate.
      apply last_elem_of. discriminate. }
    destruct (PyStr.startswith (Path.name (project_dir ++ first :: rest)%list) ".#")
      eqn:Hlock;
      [ | reflexivity].
    apply startswith_lock_hidden in Hlock. rewrite (Hnodot _ Hname) in Hlock.
    discriminate Hlock.
Qed.
